(** * Synthetic photometry: filters, AB magnitudes and colours

    A shallow embedding of [Task 10/filters.py]: the magnitude conversion
    [flux2ABMag], the class [Filter] with [propagate_flux_density] and
    [from_file], and the class [Colour].

    Numbers.  The program computes with numpy's float64, and the
    embedding reads it twice.

    In the first reading a float64 is a real number or one of the three
    non-finite values of IEEE 754: finite arithmetic is exact (rounding,
    overflow and underflow are left out), while the non-finite results
    that numpy produces instead of raising (its default error state only
    warns) are kept: [x / 0], [log10] of a non-positive number,
    [inf - inf] and so on.  Zero carries no sign; a division of a non-zero
    number by zero takes the zero as [+0.0].  The facts stated in this
    reading are those that rounding leaves alone: which exception is
    raised and when, which samples are selected, the unit of a result,
    what is computed from what, an order that is not strict.

    In the second reading, the module [B64], a float64 is a binary64
    number of the machine and every operation is the machine's.  What
    holds of real numbers and fails in the program is refuted there, by a
    run of the program on given numbers.

    Libraries.  The parts of astropy.units, numpy and scipy.integrate that
    the program calls are modelled from their behaviour: units as a scale
    to SI with a dimension vector, [np.interp], and [scipy.integrate.simps]
    with its default [even='avg']. *)

From Stdlib Require PrimFloat.
From Stdlib Require Import String Ascii.
From Stdlib Require Import Reals Lra ZArith Lia Bool List.
Import ListNotations.

Set Implicit Arguments.

(** ** Exceptions and results *)

(** The exceptions of the Python run, by the name of their class.  The last
    two are the names the specification gives to failures; no statement of
    the source raises them. *)
Inductive exception : Type :=
| UnitConversionError
| IndexError
| ValueError
| EmptyOverlapError
| DomainError.

Inductive result (A : Type) : Type :=
| Ok (a : A)
| Raise (e : exception).

Arguments Ok {A} a.
Arguments Raise {A} e.

Definition bind {A B : Type} (m : result A) (k : A -> result B) : result B :=
  match m with
  | Ok a => k a
  | Raise e => Raise e
  end.

Definition fmap {A B : Type} (f : A -> B) (m : result A) : result B :=
  bind m (fun a => Ok (f a)).

Declare Scope py_scope.
Delimit Scope py_scope with py.
Notation "x <- m ;; k" := (bind m (fun x => k))
  (at level 61, m at next level, right associativity) : py_scope.
Notation "' p <- m ;; k" := (bind m (fun p => k))
  (at level 61, p pattern, m at next level, right associativity) : py_scope.
Open Scope py_scope.

(** ** float64 *)

Module F64.

Open Scope R_scope.

Inductive float64 : Type :=
| Fin (r : R)
| PInf
| NInf
| NaN.

Definition Rltb (a b : R) : bool := if Rlt_dec a b then true else false.
Definition Reqb (a b : R) : bool := if Req_dec_T a b then true else false.

(** The sign of a real, as a three-way comparison with 0. *)
Definition Rsign (r : R) : comparison :=
  if Rlt_dec 0 r then Gt else if Rlt_dec r 0 then Lt else Eq.

Definition isnan (a : float64) : bool :=
  match a with NaN => true | _ => false end.

Definition neg (a : float64) : float64 :=
  match a with
  | Fin x => Fin (- x)
  | PInf => NInf
  | NInf => PInf
  | NaN => NaN
  end.

Definition add (a b : float64) : float64 :=
  match a, b with
  | NaN, _ | _, NaN => NaN
  | Fin x, Fin y => Fin (x + y)
  | PInf, NInf | NInf, PInf => NaN
  | PInf, _ | _, PInf => PInf
  | NInf, _ | _, NInf => NInf
  end.

Definition sub (a b : float64) : float64 := add a (neg b).

(** An infinity of the sign given by a comparison with 0; [0 * inf] and
    [0 / 0] are NaN. *)
Definition signed_inf (s : comparison) : float64 :=
  match s with Gt => PInf | Lt => NInf | Eq => NaN end.

Definition mul (a b : float64) : float64 :=
  match a, b with
  | NaN, _ | _, NaN => NaN
  | Fin x, Fin y => Fin (x * y)
  | Fin x, PInf | PInf, Fin x => signed_inf (Rsign x)
  | Fin x, NInf | NInf, Fin x => signed_inf (CompOpp (Rsign x))
  | PInf, PInf | NInf, NInf => PInf
  | PInf, NInf | NInf, PInf => NInf
  end.

Definition div (a b : float64) : float64 :=
  match a, b with
  | NaN, _ | _, NaN => NaN
  | Fin x, Fin y =>
      if Req_dec_T y 0 then signed_inf (Rsign x) else Fin (x / y)
  | Fin _, PInf | Fin _, NInf => Fin 0
  | PInf, Fin y => if Rlt_dec y 0 then NInf else PInf
  | NInf, Fin y => if Rlt_dec y 0 then PInf else NInf
  | _, _ => NaN
  end.

(** Comparisons; every comparison with NaN is false. *)
Definition ltb (a b : float64) : bool :=
  match a, b with
  | NaN, _ | _, NaN => false
  | Fin x, Fin y => Rltb x y
  | PInf, _ | _, NInf => false
  | NInf, _ | _, PInf => true
  end.

Definition gtb (a b : float64) : bool := ltb b a.

Definition eqb (a b : float64) : bool :=
  match a, b with
  | Fin x, Fin y => Reqb x y
  | PInf, PInf | NInf, NInf => true
  | _, _ => false
  end.

Definition leb (a b : float64) : bool := ltb a b || eqb a b.

Definition geb (a b : float64) : bool := leb b a.

(** [np.log10]: the logarithm for a positive number, [-inf] at zero and
    NaN below it, with a warning and no exception. *)
Definition Rlog10 (x : R) : R := ln x / ln 10.

Definition log10 (a : float64) : float64 :=
  match a with
  | Fin x =>
      match Rsign x with
      | Gt => Fin (Rlog10 x)
      | Eq => NInf
      | Lt => NaN
      end
  | PInf => PInf
  | NInf | NaN => NaN
  end.

End F64.

Import F64.

Declare Scope f64_scope.
Delimit Scope f64_scope with f64.
Bind Scope f64_scope with float64.
Infix "+" := add : f64_scope.
Infix "-" := sub : f64_scope.
Infix "*" := mul : f64_scope.
Infix "/" := div : f64_scope.
Notation "- x" := (neg x) : f64_scope.
Infix "<?" := ltb (at level 70) : f64_scope.
Infix ">?" := gtb (at level 70) : f64_scope.
Infix "<=?" := leb (at level 70) : f64_scope.
Infix ">=?" := geb (at level 70) : f64_scope.

(** ** astropy.units: units and quantities *)

(** The dimension of a unit: the exponents of length, mass and time. *)
Record Dim : Type := mkDim { d_length : Z; d_mass : Z; d_time : Z }.

Definition Dim_eqb (a b : Dim) : bool :=
  (d_length a =? d_length b)%Z && (d_mass a =? d_mass b)%Z
  && (d_time a =? d_time b)%Z.

Definition Dim_mul (a b : Dim) : Dim :=
  mkDim (d_length a + d_length b) (d_mass a + d_mass b) (d_time a + d_time b).

Definition Dim_div (a b : Dim) : Dim :=
  mkDim (d_length a - d_length b) (d_mass a - d_mass b) (d_time a - d_time b).

(** A unit is a scale to the SI unit of its dimension. *)
Record Unit : Type := mkUnit { scale : R; dim : Dim }.

Definition Unit_mul (a b : Unit) : Unit :=
  mkUnit (scale a * scale b) (Dim_mul (dim a) (dim b)).

Definition Unit_div (a b : Unit) : Unit :=
  mkUnit (scale a / scale b) (Dim_div (dim a) (dim b)).

Definition dimensionless : Unit := mkUnit 1 (mkDim 0 0 0).

Module u.
Definition m : Unit := mkUnit 1 (mkDim 1 0 0).
Definition nm : Unit := mkUnit (1 / 1000000000) (mkDim 1 0 0).
Definition AA : Unit := mkUnit (1 / 10000000000) (mkDim 1 0 0).
Definition s : Unit := mkUnit 1 (mkDim 0 0 1).
Definition Hz : Unit := mkUnit 1 (mkDim 0 0 (-1)).
(** [u.Jy]: 1e-26 W / m2 / Hz, that is 1e-26 kg / s2. *)
Definition Jy : Unit := mkUnit (1 / 10 ^ 26) (mkDim 0 1 (-2)).
(** W / m3: a flux density per unit wavelength, in SI. *)
Definition W_m3 : Unit := mkUnit 1 (mkDim (-1) 1 (-3)).
End u.

(** A quantity: a number or an array of numbers, with its unit. *)
Record Quantity (A : Type) : Type := mkQuantity { value : A; unit : Unit }.

Abbreviation ndarray := (list float64).

(** What a conversion does to the numbers: to the one number of a scalar,
    to every element of an array. *)
Class Elementwise (A : Type) : Type := elementwise : (float64 -> float64) -> A -> A.

#[export] Instance Elementwise_scalar : Elementwise float64 := fun f x => f x.
#[export] Instance Elementwise_array : Elementwise ndarray := fun f l => map f l.

(** The factor of a conversion between two units. *)
Definition conversion_factor (from target : Unit) : float64 :=
  Fin (scale from / scale target).

(** [Quantity.to]: raises UnitConversionError unless the dimensions agree. *)
Definition to {A : Type} `{Elementwise A} (q : Quantity A) (target : Unit)
  : result (Quantity A) :=
  if Dim_eqb (dim (unit q)) (dim target) then
    Ok (mkQuantity
          (elementwise (fun v => v * conversion_factor (unit q) target)%f64 (value q))
          target)
  else Raise UnitConversionError.

(** [astropy.constants.c]. *)
Definition c : Quantity float64 :=
  mkQuantity (Fin 299792458) (Unit_div u.m u.s).

(** ** numpy arrays *)

Fixpoint zipWith {A B C : Type} (f : A -> B -> C) (a : list A) (b : list B)
  : list C :=
  match a, b with
  | x :: a', y :: b' => f x y :: zipWith f a' b'
  | _, _ => []
  end.

(** Operators on two arrays of one length, element by element. *)
Declare Scope nd_scope.
Delimit Scope nd_scope with nd.
Notation "a [+] b" := (zipWith add a b) (at level 50, left associativity) : nd_scope.
Notation "a [-] b" := (zipWith sub a b) (at level 50, left associativity) : nd_scope.
Notation "a [*] b" := (zipWith mul a b) (at level 40, left associativity) : nd_scope.
Notation "a [/] b" := (zipWith div a b) (at level 40, left associativity) : nd_scope.

(** [a[mask]] for a boolean mask: IndexError unless the lengths agree. *)
Fixpoint compress {A : Type} (mask : list bool) (a : list A) : list A :=
  match mask, a with
  | b :: mask', x :: a' => if b then x :: compress mask' a' else compress mask' a'
  | _, _ => []
  end.

Definition getitem_mask {A : Type} (a : list A) (mask : list bool)
  : result (list A) :=
  if (length a =? length mask)%nat then Ok (compress mask a)
  else Raise IndexError.

(** [a[i]] for an integer, negative from the end: IndexError out of range. *)
Definition getitem {A : Type} (a : list A) (i : Z) : result A :=
  let j := if (i <? 0)%Z then (i + Z.of_nat (length a))%Z else i in
  if (j <? 0)%Z then Raise IndexError
  else match nth_error a (Z.to_nat j) with
       | Some x => Ok x
       | None => Raise IndexError
       end.

(** [a[start:stop:2]]: a negative bound counts from the end, and both are
    clipped to the array. *)
Definition clip (len : nat) (i : Z) : nat :=
  let j := if (i <? 0)%Z then (i + Z.of_nat len)%Z else i in
  Z.to_nat (Z.min (Z.max j 0) (Z.of_nat len)).

Fixpoint every_other {A : Type} (a : list A) : list A :=
  match a with
  | [] => []
  | x :: a' => x :: match a' with
                    | [] => []
                    | _ :: a'' => every_other a''
                    end
  end.

Definition slice2 {A : Type} (start stop : Z) (a : list A) : list A :=
  let b := clip (length a) start in
  let e := clip (length a) stop in
  every_other (firstn (e - b) (skipn b a)).

(** [np.minimum] and [np.maximum] of two numbers: a NaN wins. *)
Definition minimum (a b : float64) : float64 :=
  if isnan a then a else if isnan b then b else if (b <? a)%f64 then b else a.

Definition maximum (a b : float64) : float64 :=
  if isnan a then a else if isnan b then b else if (a <? b)%f64 then b else a.

(** [a.min()] and [a.max()]: ValueError on an empty array. *)
Definition np_min (a : ndarray) : result float64 :=
  match a with
  | [] => Raise ValueError
  | x :: a' => Ok (fold_left minimum a' x)
  end.

Definition np_max (a : ndarray) : result float64 :=
  match a with
  | [] => Raise ValueError
  | x :: a' => Ok (fold_left maximum a' x)
  end.

(** [np.sum]; the sum of no number is 0.0. *)
Definition np_sum (a : ndarray) : float64 := fold_left add a (Fin 0).

(** [np.diff]: [a[1:] - a[:-1]]. *)
Definition np_diff (a : ndarray) : ndarray :=
  (skipn 1 a [-] firstn (length a - 1) a)%nd.

(** [np.interp(x, xp, fp)] for one [x], as numpy's [arr_interp] computes
    it.  On one segment: the line through its two ends, from the left one;
    where that is NaN (an infinite response), from the right one; and where
    that is NaN as well and both ends have one response, that response. *)
Definition interp_segment (x x0 x1 f0 f1 : float64) : float64 :=
  let slope := ((f1 - f0) / (x1 - x0))%f64 in
  let r := (slope * (x - x0) + f0)%f64 in
  if isnan r then
    let r' := (slope * (x - x1) + f1)%f64 in
    if isnan r' && eqb f0 f1 then f0 else r'
  else r.

(** The search of the segment, [xp[j] <= x < xp[j+1]]: numpy's
    [linear_search] goes on while [x >= xp[i]], and at [j] the result is
    [fp[j]] if [j] is the last index or [xp[j] == x], and the value on the
    segment otherwise.  numpy scans in this way a grid of up to four
    points, and bisects a longer one, which it takes to be increasing: to
    the same segment, on every increasing grid. *)
Fixpoint interp_scan (x : float64) (xp fp : ndarray) : float64 :=
  match xp, fp with
  | x0 :: ((x1 :: _) as xp'), f0 :: ((f1 :: _) as fp') =>
      if (x >=? x1)%f64 then interp_scan x xp' fp'
      else if eqb x0 x then f0
      else interp_segment x x0 x1 f0 f1
  | _, f0 :: _ => f0
  | _, [] => NaN
  end.

(** A grid of one point gives its response at every [x].  On a longer grid
    a NaN stays a NaN, and the search starts with two tests:
    [x > xp[-1]] gives [fp[-1]], then [x < xp[0]] gives [fp[0]]. *)
Definition interp1 (xp fp : ndarray) (x : float64) : float64 :=
  match xp, fp with
  | [_], f0 :: _ => f0
  | x0 :: _, f0 :: _ =>
      if isnan x then x
      else if (x >? last xp x0)%f64 then last fp f0
      else if (x <? x0)%f64 then f0
      else interp_scan x xp fp
  | _, _ => NaN
  end.

(** [np.interp] on an array [x]: ValueError when there is no sample point
    or when [fp] and [xp] differ in length. *)
Definition np_interp (x xp fp : ndarray) : result ndarray :=
  match xp with
  | [] => Raise ValueError
  | _ :: _ =>
      if (length fp =? length xp)%nat then Ok (map (interp1 xp fp) x)
      else Raise ValueError
  end.

(** ** scipy.integrate.simps *)

(** [_basic_simps(y, start, stop, x, dx, axis)] with [x] given: Simpson's
    rule on the triples of samples that start at [start], [start + 2], ...
    before [stop], for samples that need not be evenly spaced.  The slices
    have one length on every call that [simps] makes, but for two samples,
    where numpy broadcasts one element against none, to none. *)
Definition _basic_simps (y : ndarray) (start stop : Z) (x : ndarray) : float64 :=
  let slice0 := slice2 start stop y in
  let slice1 := slice2 (start + 1) (stop + 1) y in
  let slice2_ := slice2 (start + 2) (stop + 2) y in
  let h := np_diff x in
  let h0 := slice2 start stop h in
  let h1 := slice2 (start + 1) (stop + 1) h in
  let hsum := (h0 [+] h1)%nd in
  let hprod := (h0 [*] h1)%nd in
  let h0divh1 := (h0 [/] h1)%nd in
  let tmp :=
    (map (fun v => v / Fin 6)%f64 hsum
     [*] (slice0 [*] map (fun v => Fin 2 - Fin 1 / v)%f64 h0divh1
          [+] slice1 [*] hsum [*] hsum [/] hprod
          [+] slice2_ [*] map (fun v => Fin 2 - v)%f64 h0divh1))%nd in
  np_sum tmp.

(** [simps(y, x)] with the default [even='avg']: for an odd number of
    samples Simpson's rule on all of them; for an even number the average
    of Simpson's rule on all but the last interval and on all but the first
    one, the interval left out taken by the trapezoidal rule. *)
Definition simps (y x : ndarray) : result float64 :=
  let N := Z.of_nat (length y) in
  if negb (length x =? length y)%nat then Raise ValueError
  else if (N mod 2 =? 0)%Z then
    let val := Fin 0 in
    x_1 <- getitem x (-1) ;;
    x_2 <- getitem x (-2) ;;
    let last_dx := (x_1 - x_2)%f64 in
    y_1 <- getitem y (-1) ;;
    y_2 <- getitem y (-2) ;;
    let val := (val + Fin (1 / 2) * last_dx * (y_1 + y_2))%f64 in
    let result := _basic_simps y 0 (N - 3) x in
    x1 <- getitem x 1 ;;
    x0 <- getitem x 0 ;;
    let first_dx := (x1 - x0)%f64 in
    y1 <- getitem y 1 ;;
    y0 <- getitem y 0 ;;
    let val := (val + Fin (1 / 2) * first_dx * (y1 + y0))%f64 in
    let result := (result + _basic_simps y 1 (N - 2) x)%f64 in
    let val := (val / Fin 2)%f64 in
    let result := (result / Fin 2)%f64 in
    Ok (result + val)%f64
  else Ok (_basic_simps y 0 (N - 2) x).

(** ** Quantity arithmetic used by the program *)

Definition Quantity_min (q : Quantity ndarray) : result (Quantity float64) :=
  v <- np_min (value q) ;; Ok (mkQuantity v (unit q)).

Definition Quantity_max (q : Quantity ndarray) : result (Quantity float64) :=
  v <- np_max (value q) ;; Ok (mkQuantity v (unit q)).

(** [a > b] and [a < b] for an array [a] and a scalar [b]: [b] is converted
    to the unit of [a], which raises when the units are incompatible. *)
Definition Quantity_gt (a : Quantity ndarray) (b : Quantity float64)
  : result (list bool) :=
  b' <- to b (unit a) ;; Ok (map (fun x => x >? value b')%f64 (value a)).

Definition Quantity_lt (a : Quantity ndarray) (b : Quantity float64)
  : result (list bool) :=
  b' <- to b (unit a) ;; Ok (map (fun x => x <? value b')%f64 (value a)).

Definition Quantity_getitem (q : Quantity ndarray) (mask : list bool)
  : result (Quantity ndarray) :=
  v <- getitem_mask (value q) mask ;; Ok (mkQuantity v (unit q)).

Definition Quantity_mul (a b : Quantity ndarray) : Quantity ndarray :=
  mkQuantity (value a [*] value b)%nd (Unit_mul (unit a) (unit b)).

Definition Quantity_div (a b : Quantity ndarray) : Quantity ndarray :=
  mkQuantity (value a [/] value b)%nd (Unit_div (unit a) (unit b)).

(** A scalar quantity over an array quantity. *)
Definition scalar_div (a : Quantity float64) (b : Quantity ndarray)
  : Quantity ndarray :=
  mkQuantity (map (fun v => value a / v)%f64 (value b))
             (Unit_div (unit a) (unit b)).

(** A plain array times, and over, an array quantity. *)
Definition array_mul (a : ndarray) (b : Quantity ndarray) : Quantity ndarray :=
  mkQuantity (a [*] value b)%nd (unit b).

Definition array_div (a : ndarray) (b : Quantity ndarray) : Quantity ndarray :=
  mkQuantity (a [/] value b)%nd (Unit_div dimensionless (unit b)).

(** [np.asarray] of a quantity drops the unit. *)
Definition asarray (q : Quantity ndarray) : ndarray := value q.

(** ** The program *)

(** [flux2ABMag(flux)] *)
Definition flux2ABMag (flux : Quantity float64) : result float64 :=
  jy <- to flux u.Jy ;;
  Ok (Fin (- (5 / 2)) * log10 (value jy) - Fin (486 / 10))%f64.

Module Spectrum.
(** What the program reads of a spectrum. *)
Record t : Type := mk {
  wavelengths : Quantity ndarray;
  flux_density : Quantity ndarray
}.
End Spectrum.

Record Filter : Type := mkFilter {
  wavelengths : Quantity ndarray;
  response : ndarray;
  name : option String.string
}.

(** Lines 32 to 35 of [propagate_flux_density]: the samples of the spectrum
    that the mask [select] keeps, as [(flux_density, wavelength)]. *)
Definition selected (self : Filter) (spectrum : Spectrum.t)
  : result (Quantity ndarray * Quantity ndarray) :=
  lo <- Quantity_min (wavelengths self) ;;
  select <- Quantity_gt (Spectrum.wavelengths spectrum) lo ;;
  hi <- Quantity_max (wavelengths self) ;;
  below <- Quantity_lt (Spectrum.wavelengths spectrum) hi ;;
  let select := zipWith andb select below in
  flux_density <- Quantity_getitem (Spectrum.flux_density spectrum) select ;;
  wavelength <- Quantity_getitem (Spectrum.wavelengths spectrum) select ;;
  Ok (flux_density, wavelength).

(** Lines 36 to 42 of [propagate_flux_density], on the selected samples. *)
Definition weighted_mean (self : Filter)
  (flux_density wavelength : Quantity ndarray) : result (Quantity float64) :=
  let frequency := scalar_div c wavelength in
  wavelength_f <- to wavelength (unit (wavelengths self)) ;;
  interpolated_response <-
    np_interp (asarray wavelength_f) (asarray (wavelengths self)) (response self) ;;
  flux_density_jansky <-
    to (Quantity_div (Quantity_mul flux_density wavelength) frequency) u.Jy ;;
  top <- simps
           (asarray (Quantity_div (array_mul interpolated_response flux_density_jansky)
                                  wavelength))
           (asarray wavelength) ;;
  bottom <- simps (asarray (array_div interpolated_response wavelength))
                  (asarray wavelength) ;;
  Ok (mkQuantity (top / bottom)%f64 (unit flux_density_jansky)).

(** [Filter.propagate_flux_density(self, spectrum)] *)
Definition propagate_flux_density (self : Filter) (spectrum : Spectrum.t)
  : result (Quantity float64) :=
  '(flux_density, wavelength) <- selected self spectrum ;;
  weighted_mean self flux_density wavelength.

(** [Filter.__call__(self, spectrum)] *)
Definition Filter__call__ (self : Filter) (spectrum : Spectrum.t)
  : result (Quantity float64) :=
  propagate_flux_density self spectrum.

(** [str.format] of a name that may be [None]. *)
Definition format_name (n : option String.string) : String.string :=
  match n with
  | Some s => s
  | None => "None"%string
  end.

(** [Filter.__repr__(self)] *)
Definition Filter__repr__ (self : Filter) : String.string :=
  ("<Filter name=" ++ format_name (name self) ++ ">")%string.

Record Colour : Type := mkColour { filters : Filter * Filter }.

(** [Filter.__sub__(self, other)] *)
Definition Filter__sub__ (self other : Filter) : Colour :=
  mkColour (self, other).

(** [Colour.__call__(self, spectrum)] *)
Definition Colour__call__ (self : Colour) (spectrum : Spectrum.t)
  : result float64 :=
  flux1 <- Filter__call__ (fst (filters self)) spectrum ;;
  flux2 <- Filter__call__ (snd (filters self)) spectrum ;;
  m1 <- flux2ABMag flux1 ;;
  m2 <- flux2ABMag flux2 ;;
  Ok (m1 - m2)%f64.

(** [Colour.__repr__(self)] *)
Definition Colour__repr__ (self : Colour) : String.string :=
  ("$" ++ format_name (name (fst (filters self))) ++ " - "
       ++ format_name (name (snd (filters self))) ++ "$")%string.

(** Whether [needle] occurs in [hay]. *)
Fixpoint contains (needle hay : String.string) : bool :=
  String.prefix needle hay
  || match hay with
     | String.EmptyString => false
     | String.String _ rest => contains needle rest
     end.

(** ** Loading a filter *)

(** What [from_file] reads of the table that [Table.read] returns: the
    columns by name, each an array with the unit of the column or [None],
    and the metadata by key. *)
Record Column : Type := mkColumn { data : ndarray; column_unit : option Unit }.

Record Table : Type := mkTable {
  columns : list (string * Column);
  meta : list (string * string)
}.

(** The exceptions of a load: a column or a key of the metadata that is
    missing, an array multiplied by [None], and a file that [Table.read]
    cannot read. *)
Inductive load_exception : Type :=
| KeyError
| TypeError
| ReadError.

Inductive loaded (A : Type) : Type :=
| Loaded (a : A)
| LoadRaise (e : load_exception).

Arguments Loaded {A} a.
Arguments LoadRaise {A} e.

(** [d[key]] on the columns and on the metadata: KeyError without the key. *)
Fixpoint lookup {A : Type} (key : string) (d : list (string * A)) : loaded A :=
  match d with
  | [] => LoadRaise KeyError
  | (k, v) :: d' => if String.eqb key k then Loaded v else lookup key d'
  end.

(** [data * unit] of line 82.  With a unit it is the quantity.  With [None]
    for a unit numpy multiplies element by element, and the first element
    raises TypeError; an array of no element goes through, to an empty
    array of objects, which has no unit.  The empty quantity without
    dimension stands for that array: the program reads the wavelengths of a
    filter first by [min()] (line 32), which raises ValueError on the one
    as on the other. *)
Definition data_times_unit (d : ndarray) (un : option Unit)
  : loaded (Quantity ndarray) :=
  match un, d with
  | Some un, _ => Loaded (mkQuantity d un)
  | None, [] => Loaded (mkQuantity [] dimensionless)
  | None, _ :: _ => LoadRaise TypeError
  end.

(** [Filter.from_file(cls, filename)], with the reader of tables as
    [read]: [None] where it fails.  The arguments of [cls] are evaluated
    from left to right. *)
Definition from_file (read : string -> option Table) (filename : string)
  : loaded Filter :=
  match read filename with
  | None => LoadRaise ReadError
  | Some t =>
      match lookup "wavelength" (columns t) with
      | LoadRaise e => LoadRaise e
      | Loaded wavelength =>
          match data_times_unit (data wavelength) (column_unit wavelength) with
          | LoadRaise e => LoadRaise e
          | Loaded wavelengths_ =>
              match lookup "response" (columns t) with
              | LoadRaise e => LoadRaise e
              | Loaded response_ =>
                  match lookup "NAME" (meta t) with
                  | LoadRaise e => LoadRaise e
                  | Loaded n =>
                      Loaded (mkFilter wavelengths_ (data response_) (Some n))
                  end
              end
          end
      end
  end.

(** ** Words of the specification *)

(** The open interval between two wavelengths. *)
Definition strictly_inside (lo hi w : float64) : bool :=
  (w >? lo)%f64 && (w <? hi)%f64.

(** The samples of a spectrum, each a wavelength with its flux density. *)
Definition samples (spectrum : Spectrum.t) : list (float64 * float64) :=
  combine (value (Spectrum.wavelengths spectrum))
          (value (Spectrum.flux_density spectrum)).

(** Whether a wavelength, given in the unit [un], is strictly between the
    least and the largest wavelength of the filter. *)
Definition inside_support (self : Filter) (un : Unit) (w : float64) : bool :=
  match np_min (value (wavelengths self)), np_max (value (wavelengths self)) with
  | Ok lo, Ok hi =>
      let k := conversion_factor (unit (wavelengths self)) un in
      strictly_inside (lo * k) (hi * k) w
  | _, _ => false
  end.

(** The samples of a spectrum inside the support of a filter, in the order
    of the spectrum. *)
Definition samples_inside (self : Filter) (spectrum : Spectrum.t)
  : list (float64 * float64) :=
  filter (fun s => inside_support self (unit (Spectrum.wavelengths spectrum)) (fst s))
         (samples spectrum).

(** A spectrum as the specification has it: a flux density for every
    wavelength. *)
Definition Spectrum_wf (spectrum : Spectrum.t) : Prop :=
  length (value (Spectrum.flux_density spectrum))
  = length (value (Spectrum.wavelengths spectrum)).

(** The unit of [flux_density * wavelength / frequency], for a flux density
    in [fu] and a wavelength in [wu]. *)
Definition frequency_flux_unit (fu wu : Unit) : Unit :=
  Unit_div (Unit_mul fu wu) (Unit_div (unit c) wu).

(** The response of the filter at a wavelength given in [wu]: linear
    interpolation on the grid of the filter. *)
Definition interpolatedResponse (self : Filter) (wu : Unit) (w : float64)
  : float64 :=
  interp1 (value (wavelengths self)) (response self)
          (w * conversion_factor wu (unit (wavelengths self)))%f64.

(** The flux density per unit frequency of one sample, in jansky:
    [flux_density * wavelength / frequency] with
    [frequency = c / wavelength]. *)
Definition frequencyFluxDensity (fu wu : Unit) (s : float64 * float64)
  : float64 :=
  let wavelength := fst s in
  let flux_density := snd s in
  let frequency := (value c / wavelength)%f64 in
  (flux_density * wavelength / frequency
   * conversion_factor (frequency_flux_unit fu wu) u.Jy)%f64.

Definition numerator_integrand (self : Filter) (fu wu : Unit)
    (s : float64 * float64) : float64 :=
  (interpolatedResponse self wu (fst s) * frequencyFluxDensity fu wu s / fst s)%f64.

Definition denominator_integrand (self : Filter) (wu : Unit)
    (s : float64 * float64) : float64 :=
  (interpolatedResponse self wu (fst s) / fst s)%f64.

(** The ratio of the two integrals over the wavelengths of the samples
    [kept], in jansky. *)
Definition ratio_of_integrals (self : Filter) (fu wu : Unit)
    (kept : list (float64 * float64)) : result (Quantity float64) :=
  let grid := map fst kept in
  numerator <- simps (map (numerator_integrand self fu wu) kept) grid ;;
  denominator <- simps (map (denominator_integrand self wu) kept) grid ;;
  Ok (mkQuantity (numerator / denominator)%f64 u.Jy).

(** The propagated flux density as the specification words it. *)
Definition propagate_spec (self : Filter) (spectrum : Spectrum.t)
  : result (Quantity float64) :=
  ratio_of_integrals self
    (unit (Spectrum.flux_density spectrum))
    (unit (Spectrum.wavelengths spectrum))
    (samples_inside self spectrum).

(** An array multiplied by a number, as in [k * response]. *)
Definition scaled (k : R) (a : ndarray) : ndarray := map (mul (Fin k)) a.

(** ** Sample data *)

(** A table with the two columns of a filter, a third column, and a name. *)
Definition table_V : Table :=
  mkTable [("response", mkColumn [Fin 1; Fin 1] None);
           ("airmass", mkColumn [Fin 1; Fin 1] None);
           ("wavelength", mkColumn [Fin 400; Fin 600] (Some u.nm))]%string
          [("ORIGIN", "lab"); ("NAME", "V")]%string.

(** A table of no row, its columns without unit, and one of two rows with
    wavelengths without unit. *)
Definition table_empty : Table :=
  mkTable [("wavelength", mkColumn [] None);
           ("response", mkColumn [] None)]%string
          [("NAME", "E")]%string.

Definition table_bare : Table :=
  mkTable [("wavelength", mkColumn [Fin 400; Fin 600] None);
           ("response", mkColumn [Fin 1; Fin 1] None)]%string
          [("NAME", "B")]%string.

(** A reader that knows three files. *)
Definition one_file (filename : string) : option Table :=
  if String.eqb filename "V.fits" then Some table_V
  else if String.eqb filename "E.fits" then Some table_empty
  else if String.eqb filename "B.fits" then Some table_bare
  else None.


(** A flat band from 400 nm to 600 nm. *)
Definition band : Filter :=
  mkFilter (mkQuantity [Fin 400; Fin 600] u.nm) [Fin 1; Fin 1] (Some "V"%string).

(** A band from 4000 to 6500 angstrom that rises with the wavelength. *)
Definition ramp : Filter :=
  mkFilter (mkQuantity [Fin 4000; Fin 6500] u.AA) [Fin 0; Fin 1] None.

(** A flat spectrum of four samples, two of them inside [band]. *)
Definition flat : Spectrum.t :=
  Spectrum.mk (mkQuantity [Fin 300; Fin 450; Fin 550; Fin 700] u.nm)
              (mkQuantity [Fin 1; Fin 1; Fin 1; Fin 1] u.W_m3).

(** A spectrum of one sample, inside [band]. *)
Definition line : Spectrum.t :=
  Spectrum.mk (mkQuantity [Fin 500] u.nm) (mkQuantity [Fin 1] u.W_m3).

(** A spectrum that agrees with [line] inside [band] and has other samples
    outside it. *)
Definition line_and_more : Spectrum.t :=
  Spectrum.mk (mkQuantity [Fin 300; Fin 500; Fin 700; Fin 800] u.nm)
              (mkQuantity [Fin 7; Fin 1; Fin 9; Fin 9] u.W_m3).

(** A spectrum with samples at both end points of [band]. *)
Definition edges : Spectrum.t :=
  Spectrum.mk (mkQuantity [Fin 400; Fin 500; Fin 600] u.nm)
              (mkQuantity [Fin 2; Fin 3; Fin 4] u.W_m3).

(** ** The program over binary64 *)

(** The definitions above once more, with the binary64 numbers of the
    machine for [float64] and each operation replaced with the machine's:
    results are rounded to the nearest binary64 number, overflow gives an
    infinity and underflow a subnormal number or zero.  Lists, masks,
    slices, dimensions, results and exceptions are the ones above. *)
Module B64.

Import PrimFloat.
Local Open Scope float_scope.
Set Warnings "-inexact-float".

Abbreviation float64 := float.
Abbreviation ndarray := (list float).

(** *** numpy.log10 *)

(** numpy calls the [log10] of the C library.  This is the function in
    binary64 by the scheme of fdlibm: with [x = 2^e * m] and [m] between
    [sqrt(1/2)] and [sqrt 2], [log10 x = e * log10 2 + ln m * log10 e],
    where [log10 2] is split into a high and a low part and
    [ln m = 2 * atanh s] for [s = (m - 1) / (m + 1)] is summed as a series
    in [s * s].  It agrees with the library up to the last digits; the
    special cases are those of C: [-inf] at zero, NaN below it and [+inf]
    at [+inf]. *)
Definition log10_2hi : float := 0x1.34413509f6p-2.
Definition log10_2lo : float := 0x1.9fef311f12b36p-42.
Definition log10_e : float := 0x1.bcb7b1526e50ep-2.
Definition sqrt_half : float := 0x1.6a09e667f3bcdp-1.

(** [atanh s / s] as a polynomial in [z = s * s]. *)
Definition atanh_series (z : float) : float :=
  fold_right (fun a acc => a + z * acc) 0
    [1; 1 / 3; 1 / 5; 1 / 7; 1 / 9; 1 / 11; 1 / 13; 1 / 15; 1 / 17; 1 / 19;
     1 / 21; 1 / 23].

Definition log10 (x : float) : float :=
  if is_nan x then x
  else if x <? 0 then nan
  else if x =? 0 then neg_infinity
  else if x =? infinity then infinity
  else
    let (m, e) := frshiftexp x in
    let e := of_uint63 e - 2101 in
    let (m, e) := if m <? sqrt_half then (2 * m, e - 1) else (m, e) in
    let s := (m - 1) / (m + 1) in
    (e * log10_2lo + 2 * s * atanh_series (s * s) * log10_e) + e * log10_2hi.

(** *** astropy.units *)

(** The scale of a unit is a binary64 number.  astropy computes the scale
    of a product of units, and the factor of a conversion, by arithmetic
    of its own on the scales, which may differ from the quotient below in
    the last digits. *)
Record Unit : Type := mkUnit { scale : float; dim : Dim }.

Definition Unit_mul (a b : Unit) : Unit :=
  mkUnit (scale a * scale b) (Dim_mul (dim a) (dim b)).

Definition Unit_div (a b : Unit) : Unit :=
  mkUnit (scale a / scale b) (Dim_div (dim a) (dim b)).

Definition dimensionless : Unit := mkUnit 1 (mkDim 0 0 0).

Module u.
Definition m : Unit := mkUnit 1 (mkDim 1 0 0).
Definition nm : Unit := mkUnit 1e-9 (mkDim 1 0 0).
Definition s : Unit := mkUnit 1 (mkDim 0 0 1).
Definition Jy : Unit := mkUnit 1e-26 (mkDim 0 1 (-2)).
Definition W_m3 : Unit := mkUnit 1 (mkDim (-1) 1 (-3)).
(** W / m2 / Hz: a flux density per unit frequency, in SI. *)
Definition W_m2_Hz : Unit := mkUnit 1 (mkDim 0 1 (-2)).
End u.

Record Quantity (A : Type) : Type := mkQuantity { value : A; unit : Unit }.

Class Elementwise (A : Type) : Type := elementwise : (float -> float) -> A -> A.

#[export] Instance Elementwise_scalar : Elementwise float := fun f x => f x.
#[export] Instance Elementwise_array : Elementwise ndarray := fun f l => map f l.

Definition conversion_factor (from target : Unit) : float :=
  scale from / scale target.

Definition to {A : Type} `{Elementwise A} (q : Quantity A) (target : Unit)
  : result (Quantity A) :=
  if Dim_eqb (dim (unit q)) (dim target) then
    Ok (mkQuantity
          (elementwise (fun v => v * conversion_factor (unit q) target) (value q))
          target)
  else Raise UnitConversionError.

Definition c : Quantity float :=
  mkQuantity 299792458 (Unit_div u.m u.s).

(** *** numpy arrays *)

Definition minimum (a b : float) : float :=
  if is_nan a then a else if is_nan b then b else if b <? a then b else a.

Definition maximum (a b : float) : float :=
  if is_nan a then a else if is_nan b then b else if a <? b then b else a.

Definition np_min (a : ndarray) : result float :=
  match a with
  | [] => Raise ValueError
  | x :: a' => Ok (fold_left minimum a' x)
  end.

Definition np_max (a : ndarray) : result float :=
  match a with
  | [] => Raise ValueError
  | x :: a' => Ok (fold_left maximum a' x)
  end.

(** [np.sum], in the order of the array; numpy adds a long array up in
    pairs, to a sum that may differ in the last digits.  On two samples
    [simps] takes the sum of no number, 0.0. *)
Definition np_sum (a : ndarray) : float := fold_left add a 0.

Definition np_diff (a : ndarray) : ndarray :=
  zipWith sub (skipn 1 a) (firstn (length a - 1) a).

Definition interp_segment (x x0 x1 f0 f1 : float) : float :=
  let slope := (f1 - f0) / (x1 - x0) in
  let r := slope * (x - x0) + f0 in
  if is_nan r then
    let r' := slope * (x - x1) + f1 in
    if is_nan r' && (f0 =? f1) then f0 else r'
  else r.

Fixpoint interp_scan (x : float) (xp fp : ndarray) : float :=
  match xp, fp with
  | x0 :: ((x1 :: _) as xp'), f0 :: ((f1 :: _) as fp') =>
      if x1 <=? x then interp_scan x xp' fp'
      else if x0 =? x then f0
      else interp_segment x x0 x1 f0 f1
  | _, f0 :: _ => f0
  | _, [] => nan
  end.

Definition interp1 (xp fp : ndarray) (x : float) : float :=
  match xp, fp with
  | [_], f0 :: _ => f0
  | x0 :: _, f0 :: _ =>
      if is_nan x then x
      else if last xp x0 <? x then last fp f0
      else if x <? x0 then f0
      else interp_scan x xp fp
  | _, _ => nan
  end.

Definition np_interp (x xp fp : ndarray) : result ndarray :=
  match xp with
  | [] => Raise ValueError
  | _ :: _ =>
      if (length fp =? length xp)%nat then Ok (map (interp1 xp fp) x)
      else Raise ValueError
  end.

(** *** scipy.integrate.simps *)

Definition _basic_simps (y : ndarray) (start stop : Z) (x : ndarray) : float :=
  let slice0 := slice2 start stop y in
  let slice1 := slice2 (start + 1) (stop + 1) y in
  let slice2_ := slice2 (start + 2) (stop + 2) y in
  let h := np_diff x in
  let h0 := slice2 start stop h in
  let h1 := slice2 (start + 1) (stop + 1) h in
  let hsum := zipWith add h0 h1 in
  let hprod := zipWith mul h0 h1 in
  let h0divh1 := zipWith div h0 h1 in
  let tmp :=
    zipWith mul
      (map (fun v => v / 6) hsum)
      (zipWith add
         (zipWith add
            (zipWith mul slice0 (map (fun v => 2 - 1 / v) h0divh1))
            (zipWith div (zipWith mul (zipWith mul slice1 hsum) hsum) hprod))
         (zipWith mul slice2_ (map (fun v => 2 - v) h0divh1))) in
  np_sum tmp.

Definition simps (y x : ndarray) : result float :=
  let N := Z.of_nat (length y) in
  if negb (length x =? length y)%nat then Raise ValueError
  else if (N mod 2 =? 0)%Z then
    let val := 0 in
    x_1 <- getitem x (-1) ;;
    x_2 <- getitem x (-2) ;;
    let last_dx := x_1 - x_2 in
    y_1 <- getitem y (-1) ;;
    y_2 <- getitem y (-2) ;;
    let val := val + 0.5 * last_dx * (y_1 + y_2) in
    let result := _basic_simps y 0 (N - 3) x in
    x1 <- getitem x 1 ;;
    x0 <- getitem x 0 ;;
    let first_dx := x1 - x0 in
    y1 <- getitem y 1 ;;
    y0 <- getitem y 0 ;;
    let val := val + 0.5 * first_dx * (y1 + y0) in
    let result := result + _basic_simps y 1 (N - 2) x in
    let val := val / 2 in
    let result := result / 2 in
    Ok (result + val)
  else Ok (_basic_simps y 0 (N - 2) x).

(** *** Quantity arithmetic *)

Definition Quantity_min (q : Quantity ndarray) : result (Quantity float) :=
  v <- np_min (value q) ;; Ok (mkQuantity v (unit q)).

Definition Quantity_max (q : Quantity ndarray) : result (Quantity float) :=
  v <- np_max (value q) ;; Ok (mkQuantity v (unit q)).

Definition Quantity_gt (a : Quantity ndarray) (b : Quantity float)
  : result (list bool) :=
  b' <- to b (unit a) ;; Ok (map (fun x => value b' <? x) (value a)).

Definition Quantity_lt (a : Quantity ndarray) (b : Quantity float)
  : result (list bool) :=
  b' <- to b (unit a) ;; Ok (map (fun x => x <? value b') (value a)).

Definition Quantity_getitem (q : Quantity ndarray) (mask : list bool)
  : result (Quantity ndarray) :=
  v <- getitem_mask (value q) mask ;; Ok (mkQuantity v (unit q)).

Definition Quantity_mul (a b : Quantity ndarray) : Quantity ndarray :=
  mkQuantity (zipWith mul (value a) (value b)) (Unit_mul (unit a) (unit b)).

Definition Quantity_div (a b : Quantity ndarray) : Quantity ndarray :=
  mkQuantity (zipWith div (value a) (value b)) (Unit_div (unit a) (unit b)).

Definition scalar_div (a : Quantity float) (b : Quantity ndarray)
  : Quantity ndarray :=
  mkQuantity (map (fun v => value a / v) (value b))
             (Unit_div (unit a) (unit b)).

Definition array_mul (a : ndarray) (b : Quantity ndarray) : Quantity ndarray :=
  mkQuantity (zipWith mul a (value b)) (unit b).

Definition array_div (a : ndarray) (b : Quantity ndarray) : Quantity ndarray :=
  mkQuantity (zipWith div a (value b)) (Unit_div dimensionless (unit b)).

Definition asarray (q : Quantity ndarray) : ndarray := value q.

(** *** The program *)

(** [flux2ABMag(flux)] *)
Definition flux2ABMag (flux : Quantity float) : result float :=
  jy <- to flux u.Jy ;;
  Ok (-2.5 * log10 (value jy) - 48.6).

Module Spectrum.
Record t : Type := mk {
  wavelengths : Quantity ndarray;
  flux_density : Quantity ndarray
}.
End Spectrum.

Record Filter : Type := mkFilter {
  wavelengths : Quantity ndarray;
  response : ndarray;
  name : option String.string
}.

Definition selected (self : Filter) (spectrum : Spectrum.t)
  : result (Quantity ndarray * Quantity ndarray) :=
  lo <- Quantity_min (wavelengths self) ;;
  select <- Quantity_gt (Spectrum.wavelengths spectrum) lo ;;
  hi <- Quantity_max (wavelengths self) ;;
  below <- Quantity_lt (Spectrum.wavelengths spectrum) hi ;;
  let select := zipWith andb select below in
  flux_density <- Quantity_getitem (Spectrum.flux_density spectrum) select ;;
  wavelength <- Quantity_getitem (Spectrum.wavelengths spectrum) select ;;
  Ok (flux_density, wavelength).

Definition weighted_mean (self : Filter)
  (flux_density wavelength : Quantity ndarray) : result (Quantity float) :=
  let frequency := scalar_div c wavelength in
  wavelength_f <- to wavelength (unit (wavelengths self)) ;;
  interpolated_response <-
    np_interp (asarray wavelength_f) (asarray (wavelengths self)) (response self) ;;
  flux_density_jansky <-
    to (Quantity_div (Quantity_mul flux_density wavelength) frequency) u.Jy ;;
  top <- simps
           (asarray (Quantity_div (array_mul interpolated_response flux_density_jansky)
                                  wavelength))
           (asarray wavelength) ;;
  bottom <- simps (asarray (array_div interpolated_response wavelength))
                  (asarray wavelength) ;;
  Ok (mkQuantity (top / bottom) (unit flux_density_jansky)).

(** [Filter.propagate_flux_density(self, spectrum)] *)
Definition propagate_flux_density (self : Filter) (spectrum : Spectrum.t)
  : result (Quantity float) :=
  '(flux_density, wavelength) <- selected self spectrum ;;
  weighted_mean self flux_density wavelength.

(** An array multiplied by a number, as in [k * response]. *)
Definition scaled (k : float) (a : ndarray) : ndarray := map (mul k) a.

(** *** Sample data *)

(** [band] and [flat] above. *)
Definition band : Filter :=
  mkFilter (mkQuantity [400; 600] u.nm) [1; 1] (Some "V"%string).

Definition flat : Spectrum.t :=
  Spectrum.mk (mkQuantity [300; 450; 550; 700] u.nm)
              (mkQuantity [1; 1; 1; 1] u.W_m3).

Definition after_one : float := 0x1.0000000000001p+0.

End B64.

(** * Facts about float64 *)

Unset Implicit Arguments.

Section Float64Facts.

Open Scope R_scope.

Lemma Rsign_pos (r : R) : 0 < r -> Rsign r = Gt.
Proof.
  intros H. unfold Rsign. destruct (Rlt_dec 0 r); [reflexivity | contradiction].
Qed.

Lemma Rsign_neg (r : R) : r < 0 -> Rsign r = Lt.
Proof.
  intros H. unfold Rsign.
  destruct (Rlt_dec 0 r); [lra |].
  destruct (Rlt_dec r 0); [reflexivity | contradiction].
Qed.

Lemma Rsign_zero : Rsign 0 = Eq.
Proof.
  unfold Rsign. destruct (Rlt_dec 0 0); [lra | reflexivity].
Qed.

Lemma Rltb_true (a b : R) : Rltb a b = true <-> a < b.
Proof.
  unfold Rltb. destruct (Rlt_dec a b); split; intros; auto; discriminate.
Qed.

Lemma Rltb_false (a b : R) : Rltb a b = false <-> b <= a.
Proof.
  unfold Rltb. destruct (Rlt_dec a b); split; intros; auto; try discriminate; lra.
Qed.

Lemma Reqb_true (a b : R) : Reqb a b = true <-> a = b.
Proof.
  unfold Reqb. destruct (Req_dec_T a b); split; intros; auto; discriminate.
Qed.

Lemma ln_10_pos : 0 < ln 10.
Proof.
  rewrite <- ln_1. apply ln_increasing; lra.
Qed.

Lemma Rlog10_increasing (x y : R) : 0 < x -> x < y -> Rlog10 x < Rlog10 y.
Proof.
  intros Hx Hxy. unfold Rlog10.
  pose proof ln_10_pos as H10.
  pose proof (ln_increasing x y Hx Hxy) as Hln.
  apply Rmult_lt_compat_r; [apply Rinv_0_lt_compat; exact H10 | exact Hln].
Qed.

(** No number is below itself: a sample at an end point of an open
    interval is outside it. *)
Lemma ltb_irrefl (a : float64) : ltb a a = false.
Proof.
  destruct a; simpl; auto. apply Rltb_false. lra.
Qed.

Lemma gtb_irrefl (a : float64) : gtb a a = false.
Proof. apply ltb_irrefl. Qed.

Lemma sub_antisym (a b : float64) : sub a b = neg (sub b a).
Proof.
  destruct a, b; simpl; try reflexivity. f_equal. lra.
Qed.

End Float64Facts.

(** Decides the comparisons of reals that the operations of float64 leave
    in a goal, each by linear arithmetic. *)
Ltac Rcases :=
  repeat match goal with
         | |- context [Rlt_dec ?a ?b] => destruct (Rlt_dec a b)
         | |- context [Req_dec_T ?a ?b] => destruct (Req_dec_T a b)
         end.

Ltac f64_unfold :=
  cbv [add sub mul div neg ltb gtb eqb leb log10 Rsign Rltb Reqb signed_inf
       CompOpp isnan].

(** * The magnitude conversion *)

Section Magnitude.

Open Scope R_scope.

(** The number that [flux.to(u.Jy).value] is. *)
Lemma flux2ABMag_unfold (flux jy : Quantity float64) :
  to flux u.Jy = Ok jy ->
  flux2ABMag flux
  = Ok (Fin (- (5 / 2)) * log10 (value jy) - Fin (486 / 10))%f64.
Proof.
  intros H. unfold flux2ABMag. rewrite H. reflexivity.
Qed.

(** The conversion fails in one way only: on a unit that is not a flux
    density per unit frequency. *)
Lemma flux2ABMag_raises (flux : Quantity float64) (e : exception) :
  flux2ABMag flux = Raise e -> e = UnitConversionError.
Proof.
  unfold flux2ABMag, to.
  destruct (Dim_eqb (dim (unit flux)) (dim u.Jy)); simpl; congruence.
Qed.

(** C5: for a flux density that converts to jansky with a positive value
    [v], [flux2ABMag] returns [-2.5 * log10(v) - 48.6]; for the positive
    value [inf] that is [-inf]. *)
Theorem flux2ABMag_positive (flux jy : Quantity float64) :
  to flux u.Jy = Ok jy ->
  (value jy >? Fin 0)%f64 = true ->
  flux2ABMag flux
  = Ok (match value jy with
        | Fin v => Fin (- (5 / 2) * Rlog10 v - 486 / 10)
        | _ => NInf
        end).
Proof.
  intros Hto Hpos. rewrite (flux2ABMag_unfold _ _ Hto).
  destruct (value jy) as [v | | |]; simpl in Hpos; try discriminate.
  - apply Rltb_true in Hpos. simpl. rewrite (Rsign_pos _ Hpos). simpl.
    apply f_equal. apply f_equal. lra.
  - simpl. rewrite Rsign_neg by lra. reflexivity.
Qed.

Lemma flux2ABMag_positive_witness :
  flux2ABMag (mkQuantity (Fin 3631) u.Jy)
  = Ok (Fin (- (5 / 2) * Rlog10 (3631 * (1 / 10 ^ 26 / (1 / 10 ^ 26))) - 486 / 10)).
Proof.
  apply (flux2ABMag_positive (mkQuantity (Fin 3631) u.Jy)
           (mkQuantity (Fin (3631 * (1 / 10 ^ 26 / (1 / 10 ^ 26)))) u.Jy)).
  - reflexivity.
  - simpl. apply Rltb_true. lra.
Defined.

(** C3, as the program has it: for a flux density that converts to jansky
    with a value that is not positive, [flux2ABMag] raises nothing; it
    returns [+inf] when the value is zero and NaN when it is negative. *)
Theorem flux2ABMag_nonpositive (flux jy : Quantity float64) :
  to flux u.Jy = Ok jy ->
  (value jy <=? Fin 0)%f64 = true ->
  flux2ABMag flux = Ok (if eqb (value jy) (Fin 0) then PInf else NaN).
Proof.
  intros Hto Hle. rewrite (flux2ABMag_unfold _ _ Hto).
  destruct (value jy) as [v | | |]; simpl in *; try discriminate.
  - unfold leb in Hle. simpl in Hle.
    destruct (Reqb v 0) eqn:E.
    + apply Reqb_true in E. subst v. rewrite Rsign_zero. simpl.
      rewrite Rsign_neg by lra. reflexivity.
    + rewrite orb_false_r in Hle. apply Rltb_true in Hle.
      rewrite (Rsign_neg _ Hle). reflexivity.
  - reflexivity.
Qed.

Lemma flux2ABMag_nonpositive_witness :
  flux2ABMag (mkQuantity (Fin (-1)) u.Jy)
  = Ok (if eqb (Fin (-1 * (1 / 10 ^ 26 / (1 / 10 ^ 26)))) (Fin 0) then PInf else NaN).
Proof.
  apply (flux2ABMag_nonpositive (mkQuantity (Fin (-1)) u.Jy)
           (mkQuantity (Fin (-1 * (1 / 10 ^ 26 / (1 / 10 ^ 26)))) u.Jy)).
  - reflexivity.
  - unfold leb. simpl. apply orb_true_iff. left. apply Rltb_true. lra.
Defined.

(** C3 fails on the program: a flux density of 0 Jy is not positive, and
    [flux2ABMag] returns [+inf] for it. *)
Lemma flux2ABMag_zero_returns :
  to (mkQuantity (Fin 0) u.Jy) u.Jy
  = Ok (mkQuantity (Fin (0 * (1 / 10 ^ 26 / (1 / 10 ^ 26)))) u.Jy)
  /\ (Fin (0 * (1 / 10 ^ 26 / (1 / 10 ^ 26))) <=? Fin 0)%f64 = true
  /\ flux2ABMag (mkQuantity (Fin 0) u.Jy) = Ok PInf
  /\ flux2ABMag (mkQuantity (Fin 0) u.Jy) <> Raise DomainError.
Proof.
  assert (E : flux2ABMag (mkQuantity (Fin 0) u.Jy) = Ok PInf).
  { unfold flux2ABMag, to. simpl. unfold elementwise, Elementwise_scalar.
    simpl. replace (0 * _) with 0 by lra.
    rewrite Rsign_zero. simpl. rewrite Rsign_neg by lra. reflexivity. }
  split; [reflexivity |]. split.
  - unfold leb. simpl. apply orb_true_iff. right. apply Reqb_true. lra.
  - split; [exact E | rewrite E; discriminate].
Qed.

(** C8: of two flux densities [f1 > f2 > 0] in one unit that converts to
    jansky, the larger has a magnitude that is not above the magnitude of
    the smaller: the magnitude does not increase with the flux.  The
    inequality is not strict in the statement, since in binary64 two
    fluxes may round to one magnitude. *)
Theorem flux2ABMag_nonincreasing (un : Unit) (f1 f2 : float64) :
  0 < scale un ->
  Dim_eqb (dim un) (dim u.Jy) = true ->
  (f1 >? f2)%f64 = true ->
  (f2 >? Fin 0)%f64 = true ->
  exists m1 m2 : float64,
    flux2ABMag (mkQuantity f1 un) = Ok m1
    /\ flux2ABMag (mkQuantity f2 un) = Ok m2
    /\ (m1 <=? m2)%f64 = true.
Proof.
  intros Hs Hd H12 H2.
  assert (Hk : 0 < scale un / scale u.Jy).
  { apply Rdiv_lt_0_compat; [exact Hs | simpl; lra]. }
  unfold flux2ABMag, to. simpl unit. rewrite Hd. simpl.
  unfold elementwise, Elementwise_scalar, conversion_factor. simpl unit.
  set (k := scale un / scale u.Jy) in *.
  destruct f2 as [y | | |]; simpl in H2; try discriminate;
    [| destruct f1; discriminate].
  apply Rltb_true in H2.
  assert (Hky : 0 < y * k) by (apply Rmult_lt_0_compat; assumption).
  destruct f1 as [x | | |]; simpl in H12; try discriminate.
  - apply Rltb_true in H12.
    assert (Hkx : y * k < x * k) by (apply Rmult_lt_compat_r; assumption).
    assert (Hkx0 : 0 < x * k) by lra.
    pose proof (Rlog10_increasing _ _ Hky Hkx) as Hlog.
    eexists. eexists. split; [reflexivity |]. split; [reflexivity |].
    simpl. rewrite (Rsign_pos _ Hky), (Rsign_pos _ Hkx0). simpl.
    unfold leb. apply orb_true_iff. left. simpl. apply Rltb_true. lra.
  - eexists. eexists. split; [reflexivity |]. split; [reflexivity |].
    simpl. rewrite (Rsign_pos _ Hk), (Rsign_pos _ Hky). simpl.
    rewrite Rsign_neg by lra. reflexivity.
Qed.

Lemma flux2ABMag_nonincreasing_witness :
  exists m1 m2 : float64,
    flux2ABMag (mkQuantity (Fin 2) u.Jy) = Ok m1
    /\ flux2ABMag (mkQuantity (Fin 1) u.Jy) = Ok m2
    /\ (m1 <=? m2)%f64 = true.
Proof.
  apply (flux2ABMag_nonincreasing u.Jy (Fin 2) (Fin 1)).
  - simpl. lra.
  - reflexivity.
  - simpl. apply Rltb_true. lra.
  - simpl. apply Rltb_true. lra.
Defined.

End Magnitude.

(** * Display *)

Section Display.

(** With a name, the label of a filter shows it. *)
Lemma Filter__repr__named (self : Filter) (n : string) :
  name self = Some n ->
  Filter__repr__ self = ("<Filter name=" ++ n ++ ">")%string.
Proof.
  intros H. unfold Filter__repr__. rewrite H. reflexivity.
Qed.

(** C9, as the program has it: a filter without a name is shown with
    Python's rendering of [None], as [<Filter name=None>], and a colour of
    two such filters as [$None - None$]. *)
Theorem repr_without_name (a b : Filter) :
  name a = None ->
  name b = None ->
  Filter__repr__ a = "<Filter name=None>"%string
  /\ Colour__repr__ (Filter__sub__ a b) = "$None - None$"%string.
Proof.
  intros Ha Hb. unfold Filter__repr__, Colour__repr__, Filter__sub__.
  simpl. rewrite Ha, Hb. split; reflexivity.
Qed.

Lemma repr_without_name_witness :
  Filter__repr__ (mkFilter (mkQuantity [] u.nm) [] None)
  = "<Filter name=None>"%string
  /\ Colour__repr__ (Filter__sub__ (mkFilter (mkQuantity [] u.nm) [] None)
                                  (mkFilter (mkQuantity [] u.AA) [] None))
     = "$None - None$"%string.
Proof.
  apply repr_without_name; reflexivity.
Defined.

(** C9 fails on the program: the labels of a filter without a name, and of
    a colour of two of them, do not contain [unnamed]. *)
Lemma repr_without_name_not_unnamed :
  name (mkFilter (mkQuantity [] u.nm) [] None) = None
  /\ contains "unnamed" (Filter__repr__ (mkFilter (mkQuantity [] u.nm) [] None))
     = false
  /\ contains "unnamed"
       (Colour__repr__ (Filter__sub__ (mkFilter (mkQuantity [] u.nm) [] None)
                                      (mkFilter (mkQuantity [] u.nm) [] None)))
     = false.
Proof.
  repeat split; reflexivity.
Qed.

End Display.

(** * Arrays *)

Section Arrays.

Context {A B C : Type}.


Lemma zipWith_map_l {A' : Type} (f : A -> B -> C) (g : A' -> A) a b :
  zipWith f (map g a) b = zipWith (fun x y => f (g x) y) a b.
Proof.
  revert b. induction a as [| x a IH]; intros [| y b]; simpl; auto.
  now rewrite IH.
Qed.

Lemma zipWith_map_r {B' : Type} (f : A -> B -> C) (g : B' -> B) a b :
  zipWith f a (map g b) = zipWith (fun x y => f x (g y)) a b.
Proof.
  revert b. induction a as [| x a IH]; intros [| y b]; simpl; auto.
  now rewrite IH.
Qed.

Lemma zipWith_ext (f g : A -> B -> C) a b :
  (forall x y, f x y = g x y) -> zipWith f a b = zipWith g a b.
Proof.
  intros E. revert b. induction a as [| x a IH]; intros [| y b]; simpl; auto.
  now rewrite E, IH.
Qed.

(** Two arrays computed from one list, element by element. *)
Lemma zipWith_map_same {T : Type} (f : A -> B -> C) (g : T -> A) (h : T -> B) l :
  zipWith f (map g l) (map h l) = map (fun t => f (g t) (h t)) l.
Proof.
  induction l as [| t l IH]; simpl; auto. now rewrite IH.
Qed.

Lemma map_zipWith {D : Type} (g : C -> D) (f : A -> B -> C) a b :
  map g (zipWith f a b) = zipWith (fun x y => g (f x y)) a b.
Proof.
  revert b. induction a as [| x a IH]; intros [| y b]; simpl; auto.
  now rewrite IH.
Qed.

End Arrays.

Section Masks.

Context {A B : Type}.

(** A mask computed from an array keeps, of a parallel array, the elements
    at the positions where the test holds. *)
Lemma compress_map_combine (p : A -> bool) (a : list A) (b : list B) :
  length b = length a ->
  compress (map p a) b = map snd (filter (fun s => p (fst s)) (combine a b)).
Proof.
  revert b. induction a as [| x a IH]; intros [| y b] H; simpl in *;
    try discriminate; auto.
  injection H as H. destruct (p x); simpl; now rewrite IH.
Qed.

Lemma compress_map_self (p : A -> bool) (a : list A) (b : list B) :
  length b = length a ->
  compress (map p a) a = map fst (filter (fun s => p (fst s)) (combine a b)).
Proof.
  revert b. induction a as [| x a IH]; intros [| y b] H; simpl in *;
    try discriminate; auto.
  injection H as H. destruct (p x); simpl; now rewrite (IH b).
Qed.

Lemma mask_and (p q : A -> bool) (a : list A) :
  zipWith andb (map p a) (map q a) = map (fun x => p x && q x) a.
Proof. apply zipWith_map_same. Qed.

Lemma getitem_mask_map (p : A -> bool) (a : list A) (b : list B) :
  length b = length a ->
  getitem_mask b (map p a) = Ok (compress (map p a) b).
Proof.
  intros H. unfold getitem_mask. rewrite length_map, H, Nat.eqb_refl. reflexivity.
Qed.

End Masks.

(** * Selection of the samples inside the support of a filter *)

Section Selection.

Open Scope R_scope.

Lemma Dim_eqb_eq (a b : Dim) : Dim_eqb a b = true <-> a = b.
Proof.
  destruct a as [l1 m1 t1], b as [l2 m2 t2]. unfold Dim_eqb. simpl.
  rewrite !andb_true_iff, !Z.eqb_eq. split.
  - intros [[-> ->] ->]. reflexivity.
  - intros E. injection E as -> -> ->. auto.
Qed.

Lemma Dim_eqb_sym (a b : Dim) : Dim_eqb a b = Dim_eqb b a.
Proof.
  unfold Dim_eqb. now rewrite (Z.eqb_sym (d_length a)), (Z.eqb_sym (d_mass a)),
    (Z.eqb_sym (d_time a)).
Qed.

(** The least and the largest of an array of finite numbers. *)
Lemma fold_minimum_Fin (l : list R) (x : R) :
  fold_left minimum (map Fin l) (Fin x) = Fin (fold_left Rmin l x).
Proof.
  revert x. induction l as [| y l IH]; intros x; simpl; auto.
  replace (minimum (Fin x) (Fin y)) with (Fin (Rmin x y)); [apply IH |].
  unfold minimum, Rmin. simpl. unfold Rltb.
  destruct (Rlt_dec y x), (Rle_dec x y); try reflexivity; f_equal; lra.
Qed.

Lemma fold_maximum_Fin (l : list R) (x : R) :
  fold_left maximum (map Fin l) (Fin x) = Fin (fold_left Rmax l x).
Proof.
  revert x. induction l as [| y l IH]; intros x; simpl; auto.
  replace (maximum (Fin x) (Fin y)) with (Fin (Rmax x y)); [apply IH |].
  unfold maximum, Rmax. simpl. unfold Rltb.
  destruct (Rlt_dec x y), (Rle_dec x y); try reflexivity; f_equal; lra.
Qed.

Lemma np_min_Fin (l : list R) (x : R) :
  np_min (map Fin (x :: l)) = Ok (Fin (fold_left Rmin l x)).
Proof. simpl. now rewrite fold_minimum_Fin. Qed.

Lemma np_max_Fin (l : list R) (x : R) :
  np_max (map Fin (x :: l)) = Ok (Fin (fold_left Rmax l x)).
Proof. simpl. now rewrite fold_maximum_Fin. Qed.

Lemma fold_Rmin_le (l : list R) (x : R) :
  fold_left Rmin l x <= x /\ forall y, In y l -> fold_left Rmin l x <= y.
Proof.
  revert x. induction l as [| z l IH]; intros x; simpl.
  - split; [lra | tauto].
  - destruct (IH (Rmin x z)) as [H1 H2].
    pose proof (Rmin_l x z). pose proof (Rmin_r x z).
    split; [lra |]. intros y [<- | Hy]; [lra | auto].
Qed.

Lemma fold_Rmax_ge (l : list R) (x : R) :
  x <= fold_left Rmax l x /\ forall y, In y l -> y <= fold_left Rmax l x.
Proof.
  revert x. induction l as [| z l IH]; intros x; simpl.
  - split; [lra | tauto].
  - destruct (IH (Rmax x z)) as [H1 H2].
    pose proof (Rmax_l x z). pose proof (Rmax_r x z).
    split; [lra |]. intros y [<- | Hy]; [lra | auto].
Qed.

(** [a.min()] and [a.max()] fail only on an empty array. *)
Lemma np_min_nonempty (a : ndarray) :
  a <> [] -> exists lo, np_min a = Ok lo.
Proof. destruct a; [congruence | intros _; eexists; reflexivity]. Qed.

Lemma np_max_nonempty (a : ndarray) :
  a <> [] -> exists hi, np_max a = Ok hi.
Proof. destruct a; [congruence | intros _; eexists; reflexivity]. Qed.

Lemma inside_support_bounds (self : Filter) (un : Unit) (lo hi w : float64) :
  np_min (value (wavelengths self)) = Ok lo ->
  np_max (value (wavelengths self)) = Ok hi ->
  inside_support self un w
  = strictly_inside (lo * conversion_factor (unit (wavelengths self)) un)
                    (hi * conversion_factor (unit (wavelengths self)) un) w.
Proof.
  intros Hlo Hhi. unfold inside_support. now rewrite Hlo, Hhi.
Qed.

(** Lines 32 to 35 keep the samples inside the support, in their order. *)
Lemma selected_inside (self : Filter) (spectrum : Spectrum.t) :
  value (wavelengths self) <> [] ->
  Dim_eqb (dim (unit (wavelengths self)))
          (dim (unit (Spectrum.wavelengths spectrum))) = true ->
  Spectrum_wf spectrum ->
  selected self spectrum
  = Ok (mkQuantity (map snd (samples_inside self spectrum))
                   (unit (Spectrum.flux_density spectrum)),
        mkQuantity (map fst (samples_inside self spectrum))
                   (unit (Spectrum.wavelengths spectrum))).
Proof.
  intros Hne Hdim Hwf.
  destruct (np_min_nonempty _ Hne) as [lo Hlo].
  destruct (np_max_nonempty _ Hne) as [hi Hhi].
  unfold selected, Quantity_min, Quantity_max, Quantity_gt, Quantity_lt, to.
  rewrite Hlo, Hhi. simpl. rewrite Hdim. simpl.
  unfold elementwise, Elementwise_scalar.
  rewrite mask_and.
  unfold Quantity_getitem.
  rewrite (getitem_mask_map _ _ _ Hwf). simpl.
  rewrite (getitem_mask_map _ _ _ eq_refl). simpl.
  rewrite (compress_map_combine _ _ _ Hwf).
  rewrite (compress_map_self _ _ _ Hwf).
  unfold samples_inside, samples.
  assert (E : forall s : float64 * float64,
             inside_support self (unit (Spectrum.wavelengths spectrum)) (fst s)
             = ((fst s >? lo * conversion_factor (unit (wavelengths self))
                                 (unit (Spectrum.wavelengths spectrum)))%f64
                && (fst s <? hi * conversion_factor (unit (wavelengths self))
                                  (unit (Spectrum.wavelengths spectrum)))%f64)).
  { intros s. now rewrite (inside_support_bounds _ _ _ _ _ Hlo Hhi). }
  rewrite (filter_ext _ _ E). reflexivity.
Qed.

(** The selection depends on the spectrum only through the units of its
    two arrays and the samples inside the support. *)
Lemma selected_local (self : Filter) (s1 s2 : Spectrum.t) :
  unit (Spectrum.wavelengths s1) = unit (Spectrum.wavelengths s2) ->
  unit (Spectrum.flux_density s1) = unit (Spectrum.flux_density s2) ->
  Spectrum_wf s1 ->
  Spectrum_wf s2 ->
  samples_inside self s1 = samples_inside self s2 ->
  selected self s1 = selected self s2.
Proof.
  intros Hu Hf Hw1 Hw2 Hin.
  destruct (value (wavelengths self)) as [| x0 xs] eqn:Hxp.
  - unfold selected, Quantity_min. rewrite Hxp. reflexivity.
  - assert (Hne : value (wavelengths self) <> []) by (rewrite Hxp; discriminate).
    destruct (Dim_eqb (dim (unit (wavelengths self)))
                      (dim (unit (Spectrum.wavelengths s1)))) eqn:Hdim.
    + rewrite (selected_inside _ _ Hne Hdim Hw1).
      rewrite Hu in Hdim. rewrite (selected_inside _ _ Hne Hdim Hw2).
      now rewrite Hin, Hu, Hf.
    + unfold selected, Quantity_min, Quantity_gt, to. rewrite Hxp. simpl.
      rewrite <- Hu, Hdim. reflexivity.
Qed.

(** C4: the selection keeps exactly the samples of the spectrum whose
    wavelength is strictly above the least and strictly below the largest
    wavelength of the filter, in the order of the spectrum; a sample at
    either end point is left out. *)
Theorem selected_strictly_between (self : Filter) (spectrum : Spectrum.t)
    (lo hi : float64) :
  np_min (value (wavelengths self)) = Ok lo ->
  np_max (value (wavelengths self)) = Ok hi ->
  Dim_eqb (dim (unit (wavelengths self)))
          (dim (unit (Spectrum.wavelengths spectrum))) = true ->
  Spectrum_wf spectrum ->
  let k := conversion_factor (unit (wavelengths self))
                             (unit (Spectrum.wavelengths spectrum)) in
  let kept := filter (fun s => strictly_inside (lo * k) (hi * k) (fst s))
                     (samples spectrum) in
  selected self spectrum
  = Ok (mkQuantity (map snd kept) (unit (Spectrum.flux_density spectrum)),
        mkQuantity (map fst kept) (unit (Spectrum.wavelengths spectrum)))
  /\ (forall s, In s kept <->
                In s (samples spectrum)
                /\ (fst s >? lo * k)%f64 = true /\ (fst s <? hi * k)%f64 = true)
  /\ strictly_inside (lo * k) (hi * k) (lo * k) = false
  /\ strictly_inside (lo * k) (hi * k) (hi * k) = false.
Proof.
  intros Hlo Hhi Hdim Hwf k kept.
  assert (Hne : value (wavelengths self) <> []).
  { intros E. rewrite E in Hlo. discriminate. }
  split; [| split; [| split]].
  - rewrite (selected_inside _ _ Hne Hdim Hwf). unfold samples_inside.
    rewrite (filter_ext _ (fun s => strictly_inside (lo * k) (hi * k) (fst s)));
      [reflexivity |].
    intros s. apply (inside_support_bounds _ _ _ _ _ Hlo Hhi).
  - intros s. unfold kept. rewrite filter_In. unfold strictly_inside.
    rewrite andb_true_iff. tauto.
  - unfold strictly_inside. now rewrite gtb_irrefl.
  - unfold strictly_inside. now rewrite ltb_irrefl, andb_false_r.
Qed.

End Selection.

(** * The filter-weighted mean flux density *)

Section WeightedMean.

Open Scope R_scope.

Lemma np_interp_ok (x xp fp : ndarray) :
  xp <> [] -> length fp = length xp ->
  np_interp x xp fp = Ok (map (interp1 xp fp) x).
Proof.
  intros Hne Hlen. unfold np_interp. destruct xp; [congruence |].
  rewrite Hlen, Nat.eqb_refl. reflexivity.
Qed.

(** Lines 36 to 42 on samples given as a list of pairs. *)
Lemma weighted_mean_ratio (self : Filter) (fu wu : Unit)
    (kept : list (float64 * float64)) :
  value (wavelengths self) <> [] ->
  length (response self) = length (value (wavelengths self)) ->
  Dim_eqb (dim wu) (dim (unit (wavelengths self))) = true ->
  Dim_eqb (dim (frequency_flux_unit fu wu)) (dim u.Jy) = true ->
  weighted_mean self (mkQuantity (map snd kept) fu) (mkQuantity (map fst kept) wu)
  = ratio_of_integrals self fu wu kept.
Proof.
  intros Hne Hlen Hw Hf.
  unfold weighted_mean, to. cbn [unit value]. rewrite Hw. cbn [bind].
  unfold asarray. cbn [unit value].
  rewrite (np_interp_ok _ _ _ Hne Hlen). cbn [bind].
  unfold Quantity_div, Quantity_mul, scalar_div, array_mul, array_div.
  cbn [unit value].
  fold (frequency_flux_unit fu wu). rewrite Hf. cbn [bind unit value].
  unfold elementwise, Elementwise_array.
  rewrite !map_map.
  rewrite !zipWith_map_same, !map_map.
  rewrite !zipWith_map_same.
  reflexivity.
Qed.

(** The propagation is the selection followed by the ratio of integrals. *)
Lemma propagate_flux_density_unfold (self : Filter) (spectrum : Spectrum.t) :
  value (wavelengths self) <> [] ->
  length (response self) = length (value (wavelengths self)) ->
  Dim_eqb (dim (unit (Spectrum.wavelengths spectrum)))
          (dim (unit (wavelengths self))) = true ->
  Dim_eqb (dim (frequency_flux_unit (unit (Spectrum.flux_density spectrum))
                                    (unit (Spectrum.wavelengths spectrum))))
          (dim u.Jy) = true ->
  Spectrum_wf spectrum ->
  propagate_flux_density self spectrum = propagate_spec self spectrum.
Proof.
  intros Hne Hlen Hw Hf Hwf. unfold propagate_flux_density.
  rewrite (selected_inside self spectrum Hne); auto.
  - cbn [bind]. apply weighted_mean_ratio; assumption.
  - now rewrite Dim_eqb_sym.
Qed.

End WeightedMean.

(** * The integrator on few samples, and on three *)

Section Simpson.

Open Scope R_scope.

Lemma div_Fin (x y : R) : y <> 0 -> (Fin x / Fin y)%f64 = Fin (x / y).
Proof.
  intros H. simpl. destruct (Req_dec_T y 0); [contradiction | reflexivity].
Qed.

Lemma div_zero_zero : (Fin 0 / Fin 0)%f64 = NaN.
Proof.
  simpl. destruct (Req_dec_T 0 0); [| congruence].
  now rewrite Rsign_zero.
Qed.


(** On one sample [simps] integrates over no interval, and returns 0.0. *)
Lemma simps_one_sample (y x : float64) : simps [y] [x] = Ok (Fin 0).
Proof. reflexivity. Qed.

(** On three samples [simps] is Simpson's rule for unequal spacings. *)
Lemma simps_three_samples (y0 y1 y2 x0 x1 x2 : float64) :
  simps [y0; y1; y2] [x0; x1; x2]
  = Ok (let h0 := x1 - x0 in
        let h1 := x2 - x1 in
        Fin 0
        + (h0 + h1) / Fin 6
          * (y0 * (Fin 2 - Fin 1 / (h0 / h1))
             + y1 * (h0 + h1) * (h0 + h1) / (h0 * h1)
             + y2 * (Fin 2 - h0 / h1)))%f64.
Proof. reflexivity. Qed.

(** On three evenly spaced finite samples that is the textbook rule
    [h / 3 * (y0 + 4 * y1 + y2)]. *)
Lemma simps_three_even (y0 y1 y2 a h : R) :
  h <> 0 ->
  simps [Fin y0; Fin y1; Fin y2] [Fin a; Fin (a + h); Fin (a + 2 * h)]
  = Ok (Fin (h / 3 * (y0 + 4 * y1 + y2))).
Proof.
  intros Hh. rewrite simps_three_samples. cbv zeta. apply f_equal.
  assert (E1 : a + h + - a = h) by lra.
  assert (E2 : a + 2 * h + - (a + h) = h) by lra.
  cbn [sub neg add]. rewrite E1, E2.
  rewrite (div_Fin h h Hh).
  assert (H1 : h / h = 1) by (field; exact Hh).
  rewrite H1. rewrite (div_Fin 1 1) by lra.
  cbn [mul add sub neg].
  rewrite (div_Fin (h + h) 6) by lra.
  rewrite (div_Fin _ (h * h)) by (apply Rmult_integral_contrapositive_currified; exact Hh).
  cbn [mul add]. apply f_equal. field. exact Hh.
Qed.

(** An index within the array, counted from either end, is found. *)
Lemma getitem_ok {A : Type} (a : list A) (i : Z) :
  (- Z.of_nat (length a) <= i < Z.of_nat (length a))%Z ->
  exists v, getitem a i = Ok v.
Proof.
  intros H. unfold getitem.
  set (j := if (i <? 0)%Z then (i + Z.of_nat (length a))%Z else i).
  assert (Hj : (0 <= j < Z.of_nat (length a))%Z).
  { unfold j. destruct (Z.ltb_spec i 0); lia. }
  destruct (Z.ltb_spec j 0); [lia |].
  destruct (nth_error a (Z.to_nat j)) eqn:E; [eexists; reflexivity |].
  apply nth_error_None in E. lia.
Qed.

(** [simps] returns on every array with a sample and a wavelength for
    each of them. *)
Lemma simps_returns (y x : ndarray) :
  length x = length y -> y <> [] -> exists v, simps y x = Ok v.
Proof.
  intros Hlen Hne. unfold simps. rewrite Hlen, Nat.eqb_refl. cbn [negb].
  destruct (Z.eqb_spec (Z.of_nat (length y) mod 2) 0) as [Hev | Hodd];
    [| eexists; reflexivity].
  assert (Hn : (2 <= length y)%nat).
  { destruct y as [| ? [| ? ?]]; simpl in *; try congruence; try lia.
    discriminate. }
  destruct (getitem_ok x (-1)) as [a1 E1]; [lia |].
  destruct (getitem_ok x (-2)) as [a2 E2]; [lia |].
  destruct (getitem_ok y (-1)) as [b1 E3]; [lia |].
  destruct (getitem_ok y (-2)) as [b2 E4]; [lia |].
  destruct (getitem_ok x 1) as [a3 E5]; [lia |].
  destruct (getitem_ok x 0) as [a4 E6]; [lia |].
  destruct (getitem_ok y 1) as [b3 E7]; [lia |].
  destruct (getitem_ok y 0) as [b4 E8]; [lia |].
  rewrite E1, E2, E3, E4, E5, E6, E7, E8. cbn [bind].
  eexists; reflexivity.
Qed.

End Simpson.

(** Evaluates selections and bounds on sample data: unfolds to comparisons
    of real constants and decides each of them. *)
Ltac f64_eval :=
  cbv [samples_inside samples inside_support strictly_inside np_min np_max
       fold_left minimum maximum conversion_factor filter combine fst snd
       Spectrum.wavelengths Spectrum.flux_density wavelengths value unit scale
       u.nm u.AA u.m
       add sub mul div neg ltb gtb eqb leb Rsign Rltb Reqb signed_inf CompOpp
       isnan andb orb];
  Rcases; try reflexivity; try (exfalso; lra).

(** * Propagation *)

Section Propagation.

Open Scope R_scope.

(** C1: on a filter with a response for each of its wavelengths and a
    spectrum, in a unit of wavelength that converts to the filter's, of
    flux densities per unit wavelength, [propagate_flux_density] returns
    the ratio of two integrals by [simps] over the wavelengths of the
    samples inside the support: of [interpolatedResponse] times the flux
    density per unit frequency over the wavelength, and of
    [interpolatedResponse] over the wavelength; the ratio is in jansky. *)
Theorem propagate_flux_density_ratio (self : Filter) (spectrum : Spectrum.t) :
  value (wavelengths self) <> [] ->
  length (response self) = length (value (wavelengths self)) ->
  Dim_eqb (dim (unit (Spectrum.wavelengths spectrum)))
          (dim (unit (wavelengths self))) = true ->
  Dim_eqb (dim (frequency_flux_unit (unit (Spectrum.flux_density spectrum))
                                    (unit (Spectrum.wavelengths spectrum))))
          (dim u.Jy) = true ->
  Spectrum_wf spectrum ->
  propagate_flux_density self spectrum
  = (let kept := samples_inside self spectrum in
     let fu := unit (Spectrum.flux_density spectrum) in
     let wu := unit (Spectrum.wavelengths spectrum) in
     numerator <-
       simps (map (fun s =>
                     interpolatedResponse self wu (fst s)
                     * (snd s * fst s / (value c / fst s)
                        * conversion_factor (frequency_flux_unit fu wu) u.Jy)
                     / fst s)%f64 kept)
             (map fst kept) ;;
     denominator <-
       simps (map (fun s => interpolatedResponse self wu (fst s) / fst s)%f64 kept)
             (map fst kept) ;;
     Ok (mkQuantity (numerator / denominator)%f64 u.Jy)).
Proof.
  intros Hne Hlen Hw Hf Hwf.
  rewrite (propagate_flux_density_unfold self spectrum Hne Hlen Hw Hf Hwf).
  reflexivity.
Qed.

Lemma propagate_flux_density_ratio_witness :
  propagate_flux_density band flat
  = (let kept := samples_inside band flat in
     numerator <-
       simps (map (fun s =>
                     interpolatedResponse band u.nm (fst s)
                     * (snd s * fst s / (value c / fst s)
                        * conversion_factor (frequency_flux_unit u.W_m3 u.nm) u.Jy)
                     / fst s)%f64 kept)
             (map fst kept) ;;
     denominator <-
       simps (map (fun s => interpolatedResponse band u.nm (fst s) / fst s)%f64 kept)
             (map fst kept) ;;
     Ok (mkQuantity (numerator / denominator)%f64 u.Jy)).
Proof.
  apply (propagate_flux_density_ratio band flat).
  - discriminate.
  - reflexivity.
  - reflexivity.
  - reflexivity.
  - reflexivity.
Defined.

(** With a sample inside the support the propagation returns, in jansky. *)
Lemma propagate_flux_density_returns (self : Filter) (spectrum : Spectrum.t) :
  value (wavelengths self) <> [] ->
  length (response self) = length (value (wavelengths self)) ->
  Dim_eqb (dim (unit (Spectrum.wavelengths spectrum)))
          (dim (unit (wavelengths self))) = true ->
  Dim_eqb (dim (frequency_flux_unit (unit (Spectrum.flux_density spectrum))
                                    (unit (Spectrum.wavelengths spectrum))))
          (dim u.Jy) = true ->
  Spectrum_wf spectrum ->
  samples_inside self spectrum <> [] ->
  exists v, propagate_flux_density self spectrum = Ok (mkQuantity v u.Jy).
Proof.
  intros Hne Hlen Hw Hf Hwf Hin.
  rewrite (propagate_flux_density_unfold self spectrum Hne Hlen Hw Hf Hwf).
  unfold propagate_spec, ratio_of_integrals. cbv zeta.
  set (kept := samples_inside self spectrum) in *.
  destruct (simps_returns
              (map (numerator_integrand self (unit (Spectrum.flux_density spectrum))
                      (unit (Spectrum.wavelengths spectrum))) kept)
              (map fst kept)) as [top Etop].
  { now rewrite !length_map. }
  { destruct kept; [congruence | discriminate]. }
  destruct (simps_returns
              (map (denominator_integrand self (unit (Spectrum.wavelengths spectrum)))
                   kept)
              (map fst kept)) as [bottom Ebottom].
  { now rewrite !length_map. }
  { destruct kept; [congruence | discriminate]. }
  rewrite Etop, Ebottom. cbn [bind]. eexists; reflexivity.
Qed.

(** The ratio of integrals on no sample and on one. *)
Lemma ratio_of_integrals_nil (self : Filter) (fu wu : Unit) :
  ratio_of_integrals self fu wu [] = Raise IndexError.
Proof. reflexivity. Qed.

Lemma ratio_of_integrals_one (self : Filter) (fu wu : Unit)
    (s : float64 * float64) :
  ratio_of_integrals self fu wu [s] = Ok (mkQuantity NaN u.Jy).
Proof.
  unfold ratio_of_integrals. cbn [map]. rewrite !simps_one_sample.
  cbn [bind]. now rewrite div_zero_zero.
Qed.

(** C2, as the program has it: with fewer than two samples inside the
    support the propagation raises no EmptyOverlapError.  Without a sample
    it fails in the integrator, with IndexError; with one sample both
    integrals are 0.0 and it returns NaN, in jansky. *)
Theorem propagate_flux_density_few_samples (self : Filter) (spectrum : Spectrum.t) :
  value (wavelengths self) <> [] ->
  length (response self) = length (value (wavelengths self)) ->
  Dim_eqb (dim (unit (Spectrum.wavelengths spectrum)))
          (dim (unit (wavelengths self))) = true ->
  Dim_eqb (dim (frequency_flux_unit (unit (Spectrum.flux_density spectrum))
                                    (unit (Spectrum.wavelengths spectrum))))
          (dim u.Jy) = true ->
  Spectrum_wf spectrum ->
  (length (samples_inside self spectrum) < 2)%nat ->
  propagate_flux_density self spectrum
  = match samples_inside self spectrum with
    | [] => Raise IndexError
    | _ :: _ => Ok (mkQuantity NaN u.Jy)
    end.
Proof.
  intros Hne Hlen Hw Hf Hwf Hfew.
  rewrite (propagate_flux_density_unfold self spectrum Hne Hlen Hw Hf Hwf).
  unfold propagate_spec.
  destruct (samples_inside self spectrum) as [| s [| s' kept]].
  - apply ratio_of_integrals_nil.
  - apply ratio_of_integrals_one.
  - simpl in Hfew. lia.
Qed.

Lemma samples_inside_band_line : samples_inside band line = [(Fin 500, Fin 1)].
Proof. unfold band, line. f64_eval. Qed.

Lemma samples_inside_band_flat :
  samples_inside band flat = [(Fin 450, Fin 1); (Fin 550, Fin 1)].
Proof. unfold band, flat. f64_eval. Qed.

Lemma propagate_flux_density_few_samples_witness :
  propagate_flux_density band line
  = match samples_inside band line with
    | [] => Raise IndexError
    | _ :: _ => Ok (mkQuantity NaN u.Jy)
    end.
Proof.
  apply (propagate_flux_density_few_samples band line).
  - discriminate.
  - reflexivity.
  - reflexivity.
  - reflexivity.
  - reflexivity.
  - rewrite samples_inside_band_line. simpl. lia.
Defined.

(** C2 fails on the program: one sample of [line] is inside the support of
    [band], and the propagation returns NaN, in jansky. *)
Lemma propagate_one_sample_returns :
  (length (samples_inside band line) < 2)%nat
  /\ propagate_flux_density band line = Ok (mkQuantity NaN u.Jy)
  /\ propagate_flux_density band line <> Raise EmptyOverlapError.
Proof.
  assert (E : propagate_flux_density band line = Ok (mkQuantity NaN u.Jy)).
  { rewrite (propagate_flux_density_unfold band line);
      try reflexivity; try discriminate.
    unfold propagate_spec. rewrite samples_inside_band_line.
    apply ratio_of_integrals_one. }
  split; [rewrite samples_inside_band_line; simpl; lia |].
  split; [exact E | rewrite E; discriminate].
Qed.

(** C10: two spectra in the same units that have the same samples inside
    the support of a filter, whatever they have outside it, propagate to
    the same result. *)
Theorem propagate_flux_density_local (self : Filter) (s1 s2 : Spectrum.t) :
  unit (Spectrum.wavelengths s1) = unit (Spectrum.wavelengths s2) ->
  unit (Spectrum.flux_density s1) = unit (Spectrum.flux_density s2) ->
  Spectrum_wf s1 ->
  Spectrum_wf s2 ->
  samples_inside self s1 = samples_inside self s2 ->
  propagate_flux_density self s1 = propagate_flux_density self s2.
Proof.
  intros Hu Hf Hw1 Hw2 Hin. unfold propagate_flux_density.
  now rewrite (selected_local self s1 s2 Hu Hf Hw1 Hw2 Hin).
Qed.

Lemma propagate_flux_density_local_witness :
  propagate_flux_density band line = propagate_flux_density band line_and_more.
Proof.
  apply (propagate_flux_density_local band line line_and_more).
  - reflexivity.
  - reflexivity.
  - reflexivity.
  - reflexivity.
  - unfold band, line, line_and_more. f64_eval.
Defined.

Lemma selected_strictly_between_witness :
  selected band edges
  = Ok (mkQuantity [Fin 3] u.W_m3, mkQuantity [Fin 500] u.nm).
Proof.
  destruct (selected_strictly_between band edges (Fin 400) (Fin 600)) as [E _].
  - unfold band. f64_eval.
  - unfold band. f64_eval.
  - reflexivity.
  - reflexivity.
  - rewrite E. unfold band, edges. f64_eval.
Defined.

End Propagation.

(** * Colours *)

Section Colours.

(** The magnitude conversion returns on every quantity in a unit of flux
    density per unit frequency. *)
Lemma flux2ABMag_returns (flux : Quantity float64) :
  Dim_eqb (dim (unit flux)) (dim u.Jy) = true ->
  exists m, flux2ABMag flux = Ok m.
Proof.
  intros H. unfold flux2ABMag, to. rewrite H. cbn [bind]. eexists; reflexivity.
Qed.

(** The evaluation of a colour, step by step. *)
Lemma Colour__call__unfold (a b : Filter) (s : Spectrum.t)
    (fa fb : Quantity float64) (ma mb : float64) :
  propagate_flux_density a s = Ok fa ->
  propagate_flux_density b s = Ok fb ->
  flux2ABMag fa = Ok ma ->
  flux2ABMag fb = Ok mb ->
  Colour__call__ (mkColour (a, b)) s = Ok (ma - mb)%f64.
Proof.
  intros Ha Hb Hma Hmb. unfold Colour__call__, Filter__call__.
  cbn [filters fst snd]. rewrite Ha, Hb. cbn [bind].
  rewrite Hma, Hmb. reflexivity.
Qed.

(** C7: where both propagations and both conversions return, the colour of
    [a] and [b] is the magnitude through [a] minus the magnitude through
    [b], and it is the opposite of the colour of [b] and [a]. *)
Theorem Colour__call__antisymmetric (a b : Filter) (s : Spectrum.t)
    (fa fb : Quantity float64) (ma mb : float64) :
  propagate_flux_density a s = Ok fa ->
  propagate_flux_density b s = Ok fb ->
  flux2ABMag fa = Ok ma ->
  flux2ABMag fb = Ok mb ->
  Colour__call__ (mkColour (a, b)) s = Ok (ma - mb)%f64
  /\ Colour__call__ (mkColour (a, b)) s
     = fmap neg (Colour__call__ (mkColour (b, a)) s).
Proof.
  intros Ha Hb Hma Hmb.
  rewrite (Colour__call__unfold a b s fa fb ma mb Ha Hb Hma Hmb).
  rewrite (Colour__call__unfold b a s fb fa mb ma Hb Ha Hmb Hma).
  split; [reflexivity |]. cbn [fmap bind]. f_equal. apply sub_antisym.
Qed.

Lemma samples_inside_ramp_flat :
  samples_inside ramp flat = [(Fin 450, Fin 1); (Fin 550, Fin 1)].
Proof. unfold ramp, flat. f64_eval. Qed.

Lemma Colour__call__antisymmetric_witness :
  exists ma mb : float64,
    Colour__call__ (mkColour (band, ramp)) flat = Ok (ma - mb)%f64
    /\ Colour__call__ (mkColour (band, ramp)) flat
       = fmap neg (Colour__call__ (mkColour (ramp, band)) flat).
Proof.
  destruct (propagate_flux_density_returns band flat) as [va Ha];
    try reflexivity; try discriminate.
  { rewrite samples_inside_band_flat. discriminate. }
  destruct (propagate_flux_density_returns ramp flat) as [vb Hb];
    try reflexivity; try discriminate.
  { rewrite samples_inside_ramp_flat. discriminate. }
  destruct (flux2ABMag_returns (mkQuantity va u.Jy)) as [ma Hma];
    [reflexivity |].
  destruct (flux2ABMag_returns (mkQuantity vb u.Jy)) as [mb Hmb];
    [reflexivity |].
  exists ma, mb.
  exact (Colour__call__antisymmetric band ramp flat _ _ ma mb Ha Hb Hma Hmb).
Defined.

End Colours.

(** * More on the magnitude conversion *)

Section MagnitudeDifferences.

Open Scope R_scope.

(** The magnitude of a finite positive flux density. *)
Lemma flux2ABMag_Fin (un : Unit) (x : R) :
  0 < scale un ->
  Dim_eqb (dim un) (dim u.Jy) = true ->
  0 < x ->
  flux2ABMag (mkQuantity (Fin x) un)
  = Ok (Fin (- (5 / 2) * Rlog10 (x * (scale un / scale u.Jy)) - 486 / 10)).
Proof.
  intros Hs Hd Hx.
  assert (Hk : 0 < scale un / scale u.Jy).
  { apply Rdiv_lt_0_compat; [exact Hs | simpl; lra]. }
  unfold flux2ABMag, to. cbn [unit value]. rewrite Hd. cbn [bind value].
  unfold elementwise, Elementwise_scalar, conversion_factor. cbn [mul log10].
  rewrite (Rsign_pos _ (Rmult_lt_0_compat _ _ Hx Hk)).
  cbn [mul sub add neg]. apply f_equal, f_equal. lra.
Qed.

End MagnitudeDifferences.

(** * When the propagation fails, and how *)

Section PropagationOutcomes.

Open Scope R_scope.

Lemma selected_empty_grid (self : Filter) (spectrum : Spectrum.t) :
  value (wavelengths self) = [] ->
  selected self spectrum = Raise ValueError.
Proof.
  intros H. unfold selected, Quantity_min. now rewrite H.
Qed.

Lemma selected_incompatible (self : Filter) (spectrum : Spectrum.t) :
  value (wavelengths self) <> [] ->
  Dim_eqb (dim (unit (wavelengths self)))
          (dim (unit (Spectrum.wavelengths spectrum))) = false ->
  selected self spectrum = Raise UnitConversionError.
Proof.
  intros Hne Hd. destruct (np_min_nonempty _ Hne) as [lo Hlo].
  unfold selected, Quantity_min, Quantity_gt, to. rewrite Hlo.
  cbn [bind unit]. now rewrite Hd.
Qed.

Lemma selected_ragged (self : Filter) (spectrum : Spectrum.t) :
  value (wavelengths self) <> [] ->
  Dim_eqb (dim (unit (wavelengths self)))
          (dim (unit (Spectrum.wavelengths spectrum))) = true ->
  ~ Spectrum_wf spectrum ->
  selected self spectrum = Raise IndexError.
Proof.
  intros Hne Hd Hwf.
  destruct (np_min_nonempty _ Hne) as [lo Hlo].
  destruct (np_max_nonempty _ Hne) as [hi Hhi].
  unfold selected, Quantity_min, Quantity_max, Quantity_gt, Quantity_lt, to.
  rewrite Hlo, Hhi. cbn [bind unit value]. rewrite Hd. cbn [bind].
  rewrite mask_and. unfold Quantity_getitem, getitem_mask.
  rewrite length_map.
  destruct (Nat.eqb_spec (length (value (Spectrum.flux_density spectrum)))
                         (length (value (Spectrum.wavelengths spectrum))))
    as [E | _]; [contradiction | reflexivity].
Qed.

(** Lines 36 to 42 on samples given as a list of pairs, when the filter
    has not a response for each of its wavelengths, and when the flux
    densities are not per unit wavelength. *)
Lemma weighted_mean_response_mismatch (self : Filter) (fu wu : Unit)
    (kept : list (float64 * float64)) :
  Dim_eqb (dim wu) (dim (unit (wavelengths self))) = true ->
  length (response self) <> length (value (wavelengths self)) ->
  weighted_mean self (mkQuantity (map snd kept) fu) (mkQuantity (map fst kept) wu)
  = Raise ValueError.
Proof.
  intros Hw Hlen. unfold weighted_mean, to. cbn [unit value]. rewrite Hw.
  cbn [bind]. unfold asarray, np_interp.
  destruct (value (wavelengths self)) as [| x0 xp]; [reflexivity |].
  destruct (Nat.eqb_spec (length (response self)) (length (x0 :: xp)));
    [contradiction | reflexivity].
Qed.

Lemma weighted_mean_flux_unit (self : Filter) (fu wu : Unit)
    (kept : list (float64 * float64)) :
  value (wavelengths self) <> [] ->
  length (response self) = length (value (wavelengths self)) ->
  Dim_eqb (dim wu) (dim (unit (wavelengths self))) = true ->
  Dim_eqb (dim (frequency_flux_unit fu wu)) (dim u.Jy) = false ->
  weighted_mean self (mkQuantity (map snd kept) fu) (mkQuantity (map fst kept) wu)
  = Raise UnitConversionError.
Proof.
  intros Hne Hlen Hw Hf. unfold weighted_mean, to. cbn [unit value]. rewrite Hw.
  cbn [bind]. unfold asarray. cbn [unit value].
  rewrite (np_interp_ok _ _ _ Hne Hlen). cbn [bind].
  unfold Quantity_div, Quantity_mul, scalar_div. cbn [unit value].
  fold (frequency_flux_unit fu wu). now rewrite Hf.
Qed.

(** Every run of the propagation is one of seven: six failures, each with
    its cause, in the order in which the method meets them, or a return in
    jansky. *)
Lemma propagate_flux_density_cases (self : Filter) (spectrum : Spectrum.t) :
  let P := propagate_flux_density self spectrum in
  let D := Dim_eqb (dim (unit (wavelengths self)))
                   (dim (unit (Spectrum.wavelengths spectrum))) in
  let Fd := Dim_eqb (dim (frequency_flux_unit
                            (unit (Spectrum.flux_density spectrum))
                            (unit (Spectrum.wavelengths spectrum))))
                    (dim u.Jy) in
  let Rl := length (response self) = length (value (wavelengths self)) in
  (value (wavelengths self) = [] /\ P = Raise ValueError)
  \/ (value (wavelengths self) <> [] /\ D = false
      /\ P = Raise UnitConversionError)
  \/ (value (wavelengths self) <> [] /\ D = true /\ ~ Spectrum_wf spectrum
      /\ P = Raise IndexError)
  \/ (value (wavelengths self) <> [] /\ D = true /\ Spectrum_wf spectrum
      /\ ~ Rl /\ P = Raise ValueError)
  \/ (value (wavelengths self) <> [] /\ D = true /\ Spectrum_wf spectrum
      /\ Rl /\ Fd = false /\ P = Raise UnitConversionError)
  \/ (value (wavelengths self) <> [] /\ D = true /\ Spectrum_wf spectrum
      /\ Rl /\ Fd = true /\ samples_inside self spectrum = []
      /\ P = Raise IndexError)
  \/ (value (wavelengths self) <> [] /\ D = true /\ Spectrum_wf spectrum
      /\ Rl /\ Fd = true /\ samples_inside self spectrum <> []
      /\ exists v, P = Ok (mkQuantity v u.Jy)).
Proof.
  cbv zeta.
  destruct (value (wavelengths self)) as [| x0 xp] eqn:Hg.
  { left. split; [reflexivity |]. unfold propagate_flux_density.
    now rewrite (selected_empty_grid self spectrum Hg). }
  assert (Hne : value (wavelengths self) <> []) by (rewrite Hg; discriminate).
  rewrite <- Hg. right.
  destruct (Dim_eqb (dim (unit (wavelengths self)))
                    (dim (unit (Spectrum.wavelengths spectrum)))) eqn:HD.
  2:{ left. repeat split; auto. unfold propagate_flux_density.
      now rewrite (selected_incompatible self spectrum Hne HD). }
  right.
  destruct (Nat.eq_dec (length (value (Spectrum.flux_density spectrum)))
                       (length (value (Spectrum.wavelengths spectrum))))
    as [Hwf | Hwf].
  2:{ left. repeat split; auto. unfold propagate_flux_density.
      now rewrite (selected_ragged self spectrum Hne HD Hwf). }
  right.
  assert (Hw : Dim_eqb (dim (unit (Spectrum.wavelengths spectrum)))
                       (dim (unit (wavelengths self))) = true)
    by (now rewrite Dim_eqb_sym).
  destruct (Nat.eq_dec (length (response self)) (length (value (wavelengths self))))
    as [Hrl | Hrl].
  2:{ left. repeat split; auto. unfold propagate_flux_density.
      rewrite (selected_inside self spectrum Hne HD Hwf). cbn [bind].
      now apply weighted_mean_response_mismatch. }
  right.
  destruct (Dim_eqb (dim (frequency_flux_unit
                            (unit (Spectrum.flux_density spectrum))
                            (unit (Spectrum.wavelengths spectrum))))
                    (dim u.Jy)) eqn:HF.
  2:{ left. repeat split; auto. unfold propagate_flux_density.
      rewrite (selected_inside self spectrum Hne HD Hwf). cbn [bind].
      now apply weighted_mean_flux_unit. }
  right.
  destruct (samples_inside self spectrum) as [| s0 kept] eqn:Hin.
  - left. repeat split; auto.
    rewrite (propagate_flux_density_unfold self spectrum Hne Hrl Hw HF Hwf).
    unfold propagate_spec. rewrite Hin. apply ratio_of_integrals_nil.
  - right. repeat split; auto; [discriminate |].
    apply propagate_flux_density_returns; auto. rewrite Hin. discriminate.
Qed.

(** The propagation returns exactly on a filter with a grid and a response
    for each wavelength of it, and a spectrum with a flux density per unit
    wavelength for each of its wavelengths, in a unit that converts to the
    filter's, with a sample inside the support; and then in jansky. *)
Theorem propagate_flux_density_returns_iff (self : Filter) (spectrum : Spectrum.t) :
  (exists v, propagate_flux_density self spectrum = Ok (mkQuantity v u.Jy))
  <-> (value (wavelengths self) <> []
       /\ Dim_eqb (dim (unit (wavelengths self)))
                  (dim (unit (Spectrum.wavelengths spectrum))) = true
       /\ Spectrum_wf spectrum
       /\ length (response self) = length (value (wavelengths self))
       /\ Dim_eqb (dim (frequency_flux_unit
                          (unit (Spectrum.flux_density spectrum))
                          (unit (Spectrum.wavelengths spectrum))))
                  (dim u.Jy) = true
       /\ samples_inside self spectrum <> []).
Proof.
  pose proof (propagate_flux_density_cases self spectrum) as H. cbv zeta in H.
  split.
  - intros [v E]. rewrite E in H.
    destruct H as [[_ H] | [(_ & _ & H) | [(_ & _ & _ & H) | [(_ & _ & _ & _ & H)
      | [(_ & _ & _ & _ & _ & H) | [(_ & _ & _ & _ & _ & _ & H) | H]]]]]];
      try discriminate.
    destruct H as (H1 & H2 & H3 & H4 & H5 & H6 & _). repeat split; assumption.
  - intros (H1 & H2 & H3 & H4 & H5 & H6).
    apply propagate_flux_density_returns; auto. now rewrite Dim_eqb_sym.
Qed.

(** Whatever the propagation returns is in jansky. *)
Lemma propagate_flux_density_unit (self : Filter) (spectrum : Spectrum.t)
    (q : Quantity float64) :
  propagate_flux_density self spectrum = Ok q -> unit q = u.Jy.
Proof.
  intros E.
  pose proof (propagate_flux_density_cases self spectrum) as H. cbv zeta in H.
  rewrite E in H.
  destruct H as [[_ H] | [(_ & _ & H) | [(_ & _ & _ & H) | [(_ & _ & _ & _ & H)
    | [(_ & _ & _ & _ & _ & H) | [(_ & _ & _ & _ & _ & _ & H) | H]]]]]];
    try discriminate.
  destruct H as (_ & _ & _ & _ & _ & _ & v & Hv). injection Hv as ->. reflexivity.
Qed.

Lemma propagate_band_line :
  propagate_flux_density band line = Ok (mkQuantity NaN u.Jy).
Proof.
  rewrite (propagate_flux_density_unfold band line);
    try reflexivity; try discriminate.
  unfold propagate_spec. rewrite samples_inside_band_line.
  apply ratio_of_integrals_one.
Qed.

(** The propagation raises ValueError exactly when the filter has no
    wavelength, or when everything before the interpolation goes through
    and the filter has not a response for each of its wavelengths. *)
Theorem propagate_flux_density_ValueError (self : Filter) (spectrum : Spectrum.t) :
  propagate_flux_density self spectrum = Raise ValueError
  <-> (value (wavelengths self) = []
       \/ (Dim_eqb (dim (unit (wavelengths self)))
                   (dim (unit (Spectrum.wavelengths spectrum))) = true
           /\ Spectrum_wf spectrum
           /\ length (response self) <> length (value (wavelengths self)))).
Proof.
  pose proof (propagate_flux_density_cases self spectrum) as H. cbv zeta in H.
  split.
  - intros E. rewrite E in H.
    destruct H as [[H _] | [(_ & _ & H) | [(_ & _ & _ & H) | [(_ & H2 & H3 & H4 & _)
      | [(_ & _ & _ & _ & _ & H) | [(_ & _ & _ & _ & _ & _ & H)
      | (_ & _ & _ & _ & _ & _ & v & H)]]]]]];
      try discriminate; tauto.
  - intros [Hg | (H2 & H3 & H4)].
    + destruct H as [[_ H] | [(Hne & _) | [(Hne & _) | [(Hne & _)
        | [(Hne & _) | [(Hne & _) | (Hne & _)]]]]]]; tauto.
    + destruct H as [[_ H] | [(_ & D & _) | [(_ & _ & L & _) | [(_ & _ & _ & _ & H)
        | [(_ & _ & _ & R & _) | [(_ & _ & _ & R & _) | (_ & _ & _ & R & _)]]]]]];
        try tauto; try congruence.
Qed.

(** It raises UnitConversionError exactly on a filter with a grid, when the
    unit of the spectrum's wavelengths does not convert to the filter's,
    or when everything before goes through and the flux densities are not
    per unit wavelength. *)
Theorem propagate_flux_density_UnitConversionError
    (self : Filter) (spectrum : Spectrum.t) :
  propagate_flux_density self spectrum = Raise UnitConversionError
  <-> (value (wavelengths self) <> []
       /\ (Dim_eqb (dim (unit (wavelengths self)))
                   (dim (unit (Spectrum.wavelengths spectrum))) = false
           \/ (Spectrum_wf spectrum
               /\ length (response self) = length (value (wavelengths self))
               /\ Dim_eqb (dim (frequency_flux_unit
                                  (unit (Spectrum.flux_density spectrum))
                                  (unit (Spectrum.wavelengths spectrum))))
                          (dim u.Jy) = false))).
Proof.
  pose proof (propagate_flux_density_cases self spectrum) as H. cbv zeta in H.
  split.
  - intros E. rewrite E in H.
    destruct H as [[_ H] | [(H1 & H2 & _) | [(_ & _ & _ & H) | [(_ & _ & _ & _ & H)
      | [(H1 & _ & H3 & H4 & H5 & _) | [(_ & _ & _ & _ & _ & _ & H)
      | (_ & _ & _ & _ & _ & _ & v & H)]]]]]];
      try discriminate; tauto.
  - intros (Hne & [HD | (H3 & H4 & H5)]).
    + destruct H as [[Hg _] | [(_ & _ & H) | [(_ & D & _) | [(_ & D & _)
        | [(_ & D & _) | [(_ & D & _) | (_ & D & _)]]]]]];
        try tauto; try congruence.
    + destruct H as [[Hg _] | [(_ & _ & H) | [(_ & _ & L & _) | [(_ & _ & _ & R & _)
        | [(_ & _ & _ & _ & _ & H) | [(_ & _ & _ & _ & F & _)
        | (_ & _ & _ & _ & F & _)]]]]]];
        try tauto; try congruence.
Qed.

(** It raises IndexError exactly on a filter with a grid and a spectrum in
    a unit of wavelength that converts, when the spectrum has not a flux
    density for each wavelength, or when everything before the integration
    goes through and no sample is inside the support. *)
Theorem propagate_flux_density_IndexError (self : Filter) (spectrum : Spectrum.t) :
  propagate_flux_density self spectrum = Raise IndexError
  <-> (value (wavelengths self) <> []
       /\ Dim_eqb (dim (unit (wavelengths self)))
                  (dim (unit (Spectrum.wavelengths spectrum))) = true
       /\ (~ Spectrum_wf spectrum
           \/ (length (response self) = length (value (wavelengths self))
               /\ Dim_eqb (dim (frequency_flux_unit
                                  (unit (Spectrum.flux_density spectrum))
                                  (unit (Spectrum.wavelengths spectrum))))
                          (dim u.Jy) = true
               /\ samples_inside self spectrum = []))).
Proof.
  pose proof (propagate_flux_density_cases self spectrum) as H. cbv zeta in H.
  split.
  - intros E. rewrite E in H.
    destruct H as [[_ H] | [(_ & _ & H) | [(H1 & H2 & H3 & _) | [(_ & _ & _ & _ & H)
      | [(_ & _ & _ & _ & _ & H) | [(H1 & H2 & H3 & H4 & H5 & H6 & _)
      | (_ & _ & _ & _ & _ & _ & v & H)]]]]]];
      try discriminate; tauto.
  - intros (Hne & HD & [Hwf | (H4 & H5 & H6)]).
    + destruct H as [[Hg _] | [(_ & D & _) | [(_ & _ & _ & H) | [(_ & _ & L & _)
        | [(_ & _ & L & _) | [(_ & _ & L & _) | (_ & _ & L & _)]]]]]];
        try tauto; try congruence.
    + destruct H as [[Hg _] | [(_ & D & _) | [(_ & _ & _ & H) | [(_ & _ & _ & R & _)
        | [(_ & _ & _ & _ & F & _) | [(_ & _ & _ & _ & _ & _ & H)
        | (_ & _ & _ & _ & _ & S & _)]]]]]];
        try tauto; try congruence.
Qed.

(** It raises nothing else: the failures that the specification names
    EmptyOverlapError and DomainError never come out of it. *)
Theorem propagate_flux_density_raises (self : Filter) (spectrum : Spectrum.t)
    (e : exception) :
  propagate_flux_density self spectrum = Raise e ->
  e = ValueError \/ e = UnitConversionError \/ e = IndexError.
Proof.
  intros E.
  pose proof (propagate_flux_density_cases self spectrum) as H. cbv zeta in H.
  rewrite E in H.
  destruct H as [[_ H] | [(_ & _ & H) | [(_ & _ & _ & H) | [(_ & _ & _ & _ & H)
    | [(_ & _ & _ & _ & _ & H) | [(_ & _ & _ & _ & _ & _ & H)
    | (_ & _ & _ & _ & _ & _ & v & H)]]]]]];
    try discriminate; injection H as ->; auto.
Qed.

Lemma propagate_flux_density_raises_witness :
  IndexError = ValueError \/ IndexError = UnitConversionError
  \/ IndexError = IndexError.
Proof.
  apply (propagate_flux_density_raises
           (mkFilter (mkQuantity [Fin 400; Fin 600] u.nm) [Fin 1; Fin 1] None)
           (Spectrum.mk (mkQuantity [] u.nm) (mkQuantity [] u.W_m3))).
  reflexivity.
Defined.

End PropagationOutcomes.

(** * Another response on the same grid *)

Section Rescaling.




End Rescaling.

(** * Propagation of finite data *)

Section FiniteData.

Open Scope R_scope.

Lemma c_over_nonzero (l : R) : l <> 0 -> 299792458 / l <> 0.
Proof.
  intros H. unfold Rdiv. apply Rmult_integral_contrapositive_currified.
  - lra.
  - now apply Rinv_neq_0_compat.
Qed.

(** The flux density per unit frequency of a finite sample away from the
    wavelength 0. *)
Lemma frequencyFluxDensity_Fin (fu wu : Unit) (l f : R) :
  l <> 0 ->
  frequencyFluxDensity fu wu (Fin l, Fin f)
  = Fin (f * l / (299792458 / l)
         * (scale (frequency_flux_unit fu wu) / scale u.Jy)).
Proof.
  intros Hl. unfold frequencyFluxDensity, conversion_factor, c.
  cbn [fst snd value mul].
  rewrite (div_Fin 299792458 l Hl).
  rewrite (div_Fin _ _ (c_over_nonzero l Hl)).
  reflexivity.
Qed.

(** On two samples [simps] is the trapezoidal rule. *)
Lemma simps_two_samples (y0 y1 x0 x1 : float64) :
  simps [y0; y1] [x0; x1]
  = Ok ((Fin 0 + Fin 0) / Fin 2
        + (Fin 0 + Fin (1 / 2) * (x1 - x0) * (y1 + y0)
           + Fin (1 / 2) * (x1 - x0) * (y1 + y0)) / Fin 2)%f64.
Proof. reflexivity. Qed.

Lemma simps_two_finite (y0 y1 x0 x1 : R) :
  simps [Fin y0; Fin y1] [Fin x0; Fin x1]
  = Ok (Fin ((x1 - x0) * (y0 + y1) / 2)).
Proof.
  rewrite simps_two_samples. cbn [add sub neg mul].
  rewrite !div_Fin by lra. cbn [add]. apply f_equal, f_equal. field.
Qed.

(** The interpolant inside a grid of two finite points with finite
    responses. *)
Lemma interp1_two_finite (x0 x1 f0 f1 x : R) :
  x0 < x < x1 ->
  interp1 [Fin x0; Fin x1] [Fin f0; Fin f1] (Fin x)
  = Fin ((f1 - f0) / (x1 - x0) * (x - x0) + f0).
Proof.
  intros H. unfold interp1, interp_scan, interp_segment, geb, leb, gtb.
  cbn [isnan last ltb eqb]. unfold Rltb, Reqb.
  destruct (Rlt_dec x1 x); [lra |].
  destruct (Rlt_dec x x0); [lra |].
  destruct (Req_dec_T x1 x); [lra |].
  destruct (Req_dec_T x0 x); [lra |].
  cbn [orb sub neg add]. rewrite div_Fin by lra. reflexivity.
Qed.

(** The response of [band] is 1 across its support. *)
Lemma interpolatedResponse_band (x : R) :
  400 < x < 600 -> interpolatedResponse band u.nm (Fin x) = Fin 1.
Proof.
  intros H. unfold interpolatedResponse, band, conversion_factor.
  cbn [wavelengths response value unit scale u.nm mul].
  assert (E : x * (1 / 1000000000 / (1 / 1000000000)) = x) by field.
  rewrite E, interp1_two_finite by lra.
  apply f_equal. field.
Qed.

(** The response of [ramp], at a wavelength in nanometres. *)
Lemma interpolatedResponse_ramp (x : R) :
  400 < x < 650 ->
  interpolatedResponse ramp u.nm (Fin x) = Fin ((x - 400) / 250).
Proof.
  intros H. unfold interpolatedResponse, ramp, conversion_factor.
  cbn [wavelengths response value unit scale u.nm u.AA mul].
  assert (E : x * (1 / 1000000000 / (1 / 10000000000)) = 10 * x) by field.
  rewrite E, interp1_two_finite by lra.
  apply f_equal. field.
Qed.

(** [flat] through [band] and through [ramp]: finite and positive. *)
Lemma propagate_band_flat :
  exists x : R, 0 < x
    /\ propagate_flux_density band flat = Ok (mkQuantity (Fin x) u.Jy).
Proof.
  rewrite (propagate_flux_density_unfold band flat);
    try reflexivity; try discriminate.
  unfold propagate_spec. rewrite samples_inside_band_flat.
  unfold ratio_of_integrals, numerator_integrand, denominator_integrand.
  cbn [map fst snd flat Spectrum.wavelengths Spectrum.flux_density unit].
  rewrite !interpolatedResponse_band by lra.
  rewrite !frequencyFluxDensity_Fin by lra.
  cbn [mul]. rewrite !div_Fin by lra.
  rewrite !simps_two_finite. cbn [bind].
  rewrite div_Fin by lra.
  eexists. split; [| reflexivity].
  cbn [frequency_flux_unit Unit_div Unit_mul scale u.W_m3 u.nm u.Jy u.m u.s
       c unit].
  apply Rdiv_lt_0_compat; lra.
Qed.

Lemma propagate_ramp_flat :
  exists x : R, 0 < x
    /\ propagate_flux_density ramp flat = Ok (mkQuantity (Fin x) u.Jy).
Proof.
  rewrite (propagate_flux_density_unfold ramp flat);
    try reflexivity; try discriminate.
  unfold propagate_spec. rewrite samples_inside_ramp_flat.
  unfold ratio_of_integrals, numerator_integrand, denominator_integrand.
  cbn [map fst snd flat Spectrum.wavelengths Spectrum.flux_density unit].
  rewrite !interpolatedResponse_ramp by lra.
  rewrite !frequencyFluxDensity_Fin by lra.
  cbn [mul]. rewrite !div_Fin by lra.
  rewrite !simps_two_finite. cbn [bind].
  rewrite div_Fin by lra.
  eexists. split; [| reflexivity].
  cbn [frequency_flux_unit Unit_div Unit_mul scale u.W_m3 u.nm u.Jy u.m u.s
       c unit].
  apply Rdiv_lt_0_compat; lra.
Qed.

End FiniteData.

(** * More on colours *)

Section ColourFacts.

Open Scope R_scope.

Lemma flux2ABMag_of_propagated (self : Filter) (spectrum : Spectrum.t)
    (flux : Quantity float64) :
  propagate_flux_density self spectrum = Ok flux ->
  exists m, flux2ABMag flux = Ok m.
Proof.
  intros E. apply flux2ABMag_returns.
  now rewrite (propagate_flux_density_unit self spectrum flux E).
Qed.

(** The magnitude of a finite positive number of jansky. *)
Lemma flux2ABMag_Jy (x : R) :
  0 < x ->
  flux2ABMag (mkQuantity (Fin x) u.Jy)
  = Ok (Fin (- (5 / 2) * Rlog10 x - 486 / 10)).
Proof.
  intros Hx.
  rewrite (flux2ABMag_Fin u.Jy x); [| simpl; lra | reflexivity | exact Hx].
  replace (x * (scale u.Jy / scale u.Jy)) with x; [reflexivity |].
  simpl. field.
Qed.

(** A colour is computed exactly when both filters propagate the
    spectrum: the conversion to magnitudes cannot fail after a propagation.
    A failure of the colour is the failure of the first filter, or else of
    the second. *)
Theorem Colour__call__outcomes (a b : Filter) (s : Spectrum.t) :
  ((exists m, Colour__call__ (mkColour (a, b)) s = Ok m)
   <-> (exists fa, propagate_flux_density a s = Ok fa)
       /\ (exists fb, propagate_flux_density b s = Ok fb))
  /\ (forall e,
         Colour__call__ (mkColour (a, b)) s = Raise e
         <-> propagate_flux_density a s = Raise e
             \/ ((exists fa, propagate_flux_density a s = Ok fa)
                 /\ propagate_flux_density b s = Raise e)).
Proof.
  unfold Colour__call__, Filter__call__. cbn [filters fst snd].
  destruct (propagate_flux_density a s) as [fa | ea] eqn:Ea.
  - destruct (flux2ABMag_of_propagated a s fa Ea) as [ma Hma].
    destruct (propagate_flux_density b s) as [fb | eb] eqn:Eb.
    + destruct (flux2ABMag_of_propagated b s fb Eb) as [mb Hmb].
      cbn [bind]. rewrite Hma, Hmb. cbn [bind]. split.
      * split; [intros _ | intros _; eexists; reflexivity].
        split; eexists; reflexivity.
      * intros e. split; [discriminate |].
        intros [H | [_ H]]; discriminate.
    + cbn [bind]. split.
      * split; [intros [m H]; discriminate | intros [_ [fb H]]; discriminate].
      * intros e. split.
        -- intros H. right. split; [eexists; reflexivity | congruence].
        -- intros [H | [_ H]]; [discriminate | congruence].
  - cbn [bind]. split.
    + split; [intros [m H]; discriminate | intros [[fa H] _]; discriminate].
    + intros e. split.
      * intros H. left. congruence.
      * intros [H | [[fa H] _]]; [congruence | discriminate].
Qed.

(** The colour of a filter against itself is 0.0, where its magnitude is
    finite. *)
Theorem Colour__call__same_filter (a : Filter) (s : Spectrum.t)
    (fa : Quantity float64) (m : R) :
  propagate_flux_density a s = Ok fa ->
  flux2ABMag fa = Ok (Fin m) ->
  Colour__call__ (Filter__sub__ a a) s = Ok (Fin 0).
Proof.
  intros Ha Hm. unfold Filter__sub__.
  rewrite (Colour__call__unfold a a s fa fa (Fin m) (Fin m) Ha Ha Hm Hm).
  cbn [sub neg add]. apply f_equal, f_equal. lra.
Qed.

Lemma Colour__call__same_filter_witness :
  Colour__call__ (Filter__sub__ band band) flat = Ok (Fin 0).
Proof.
  destruct propagate_band_flat as (x & Hx & E).
  exact (Colour__call__same_filter band flat _ _ E (flux2ABMag_Jy x Hx)).
Defined.

End ColourFacts.

(** * Labels and files *)

Section Labels.

Lemma prefix_app (n q : string) : String.prefix n (n ++ q)%string = true.
Proof.
  induction n as [| ch n IH]; simpl; [destruct q; reflexivity |].
  destruct (Ascii.ascii_dec ch ch); [exact IH | congruence].
Qed.

Lemma contains_app_l (n p q : string) :
  contains n q = true -> contains n (p ++ q)%string = true.
Proof.
  intros H. induction p as [| ch p IH]; [exact H |].
  change ((String ch p ++ q)%string) with (String ch (p ++ q)%string).
  cbn [contains]. rewrite IH. apply orb_true_r.
Qed.

Lemma contains_middle (n p q : string) :
  contains n (p ++ n ++ q)%string = true.
Proof.
  apply contains_app_l.
  destruct (n ++ q)%string eqn:E; cbn [contains]; rewrite <- E;
    rewrite prefix_app; reflexivity.
Qed.

Lemma string_app_assoc (a b d : string) :
  ((a ++ b) ++ d)%string = (a ++ b ++ d)%string.
Proof.
  induction a as [| ch a IH]; simpl; [reflexivity | now rewrite IH].
Qed.

(** The label of a filter with a name shows the name, and the label of a
    colour of two filters with names reads [$first - second$]: it shows
    both names, the first before the second. *)
Theorem repr_with_names (a b : Filter) (na nb : string) :
  name a = Some na ->
  name b = Some nb ->
  contains na (Filter__repr__ a) = true
  /\ Colour__repr__ (Filter__sub__ a b) = ("$" ++ na ++ " - " ++ nb ++ "$")%string
  /\ contains na (Colour__repr__ (Filter__sub__ a b)) = true
  /\ contains nb (Colour__repr__ (Filter__sub__ a b)) = true.
Proof.
  intros Ha Hb. unfold Filter__repr__, Colour__repr__, Filter__sub__.
  cbn [filters fst snd]. rewrite Ha, Hb. cbn [format_name].
  split; [apply contains_middle |]. split; [reflexivity |].
  split; [apply contains_middle |].
  rewrite <- (string_app_assoc na " - " (nb ++ "$")).
  rewrite <- (string_app_assoc "$" (na ++ " - ") (nb ++ "$")).
  apply contains_middle.
Qed.

Lemma repr_with_names_witness :
  contains "V" (Filter__repr__ band) = true
  /\ Colour__repr__ (Filter__sub__ band band)
     = ("$" ++ "V" ++ " - " ++ "V" ++ "$")%string
  /\ contains "V" (Colour__repr__ (Filter__sub__ band band)) = true
  /\ contains "V" (Colour__repr__ (Filter__sub__ band band)) = true.
Proof.
  apply (repr_with_names band band "V" "V"); reflexivity.
Defined.

Lemma lookup_found {A : Type} (key : string) (d : list (string * A)) :
  (exists v, lookup key d = Loaded v) <-> In key (map fst d).
Proof.
  induction d as [| [k v] d IH]; cbn [lookup map fst In].
  - split; [intros [v H]; discriminate | tauto].
  - destruct (String.eqb_spec key k) as [-> | Hne].
    + split; [auto | intros _; eexists; reflexivity].
    + rewrite IH. split; [auto | intros [H | H]; [congruence | exact H]].
Qed.

Lemma lookup_raises {A : Type} (key : string) (d : list (string * A))
    (e : load_exception) :
  lookup key d = LoadRaise e -> e = KeyError /\ ~ In key (map fst d).
Proof.
  induction d as [| [k v] d IH]; cbn [lookup map fst In].
  - intros H. injection H as <-. tauto.
  - destruct (String.eqb_spec key k) as [-> | Hne]; [discriminate |].
    intros H. destruct (IH H) as [-> Hn]. split; [reflexivity |].
    intros [E | E]; [congruence | contradiction].
Qed.

Lemma data_times_unit_loads (d : ndarray) (un : option Unit) :
  (exists q, data_times_unit d un = Loaded q) <-> (un = None -> d = []).
Proof.
  destruct un as [un |], d as [| x d]; cbn [data_times_unit]; split;
    try (intros _; eexists; reflexivity); try discriminate; try reflexivity.
  - intros [q H]. discriminate.
  - intros H. discriminate (H eq_refl).
Qed.

Lemma data_times_unit_raises (d : ndarray) (un : option Unit)
    (e : load_exception) :
  data_times_unit d un = LoadRaise e <-> e = TypeError /\ un = None /\ d <> [].
Proof.
  destruct un as [un |], d as [| x d]; cbn [data_times_unit]; split;
    try discriminate.
  - intros (_ & H & _). discriminate.
  - intros (_ & H & _). discriminate.
  - intros (_ & _ & H). contradiction.
  - intros H. injection H as <-. repeat split. discriminate.
  - intros (-> & _). reflexivity.
Qed.

(** A filter is loaded exactly from a file that the reader reads to a
    table with a column [wavelength] that has a unit or no row, a column
    [response] and a [NAME] in the metadata; the filter has that name, and
    its label shows it. *)
Theorem from_file_loads_iff (read : string -> option Table) (filename : string) :
  ((exists f, from_file read filename = Loaded f)
   <-> exists t wavelength,
         read filename = Some t
         /\ lookup "wavelength" (columns t) = Loaded wavelength
         /\ (column_unit wavelength = None -> data wavelength = [])
         /\ In "response"%string (map fst (columns t))
         /\ In "NAME"%string (map fst (meta t)))
  /\ (forall f, from_file read filename = Loaded f ->
        exists t n, read filename = Some t
                    /\ lookup "NAME" (meta t) = Loaded n
                    /\ name f = Some n
                    /\ contains n (Filter__repr__ f) = true).
Proof.
  unfold from_file. split.
  - split.
    + intros [f H]. destruct (read filename) as [t |]; [| discriminate].
      destruct (lookup "wavelength" (columns t)) as [w | e] eqn:Ew;
        [| discriminate].
      destruct (data_times_unit (data w) (column_unit w)) as [q | e] eqn:Eq;
        [| discriminate].
      destruct (lookup "response" (columns t)) as [r | e] eqn:Er; [| discriminate].
      destruct (lookup "NAME" (meta t)) as [n | e] eqn:En; [| discriminate].
      exists t, w.
      split; [reflexivity |]. split; [exact Ew |].
      split; [apply data_times_unit_loads; eexists; exact Eq |].
      split; apply lookup_found; eexists; eassumption.
    + intros (t & w & Hr & Hw & Hu & Hresp & Hname).
      apply data_times_unit_loads in Hu. destruct Hu as [q Eq].
      apply lookup_found in Hresp. destruct Hresp as [r Er].
      apply lookup_found in Hname. destruct Hname as [n En].
      rewrite Hr, Hw, Eq, Er, En. eexists; reflexivity.
  - intros f H. destruct (read filename) as [t |]; [| discriminate].
    destruct (lookup "wavelength" (columns t)) as [w | e]; [| discriminate].
    destruct (data_times_unit (data w) (column_unit w)) as [q | e];
      [| discriminate].
    destruct (lookup "response" (columns t)) as [r | e]; [| discriminate].
    destruct (lookup "NAME" (meta t)) as [n | e] eqn:En; [| discriminate].
    injection H as <-. exists t, n.
    split; [reflexivity |]. split; [exact En |]. split; [reflexivity |].
    unfold Filter__repr__. cbn [name format_name]. apply contains_middle.
Qed.

(** A load fails with TypeError exactly when the file is read and the
    column of wavelengths has no unit and at least one row; with KeyError
    exactly when a column or the name is missing, the wavelengths having a
    unit or no row unless their column itself is missing. *)
Theorem from_file_raises (read : string -> option Table) (filename : string)
    (t : Table) :
  read filename = Some t ->
  (from_file read filename = LoadRaise TypeError
   <-> exists wavelength, lookup "wavelength" (columns t) = Loaded wavelength
                          /\ column_unit wavelength = None
                          /\ data wavelength <> [])
  /\ (from_file read filename = LoadRaise KeyError
      <-> ~ In "wavelength"%string (map fst (columns t))
          \/ (exists wavelength,
                 lookup "wavelength" (columns t) = Loaded wavelength
                 /\ (column_unit wavelength = None -> data wavelength = [])
                 /\ (~ In "response"%string (map fst (columns t))
                     \/ ~ In "NAME"%string (map fst (meta t))))).
Proof.
  intros Hr. unfold from_file. rewrite Hr.
  destruct (lookup "wavelength" (columns t)) as [w | e] eqn:Ew.
  - assert (Hin : In "wavelength"%string (map fst (columns t))).
    { apply lookup_found. eexists; exact Ew. }
    destruct (data_times_unit (data w) (column_unit w)) as [q | e] eqn:Eq.
    + assert (Hu : column_unit w = None -> data w = []).
      { apply data_times_unit_loads. eexists; exact Eq. }
      destruct (lookup "response" (columns t)) as [r | e] eqn:Er.
      * assert (Hinr : In "response"%string (map fst (columns t))).
        { apply lookup_found. eexists; exact Er. }
        destruct (lookup "NAME" (meta t)) as [n | e] eqn:En.
        -- assert (Hinn : In "NAME"%string (map fst (meta t))).
           { apply lookup_found. eexists; exact En. }
           split; split; try discriminate.
           ++ intros (w' & Hw' & Hu' & Hd'). injection Hw' as <-.
              contradiction (Hd' (Hu Hu')).
           ++ intros [H | (w' & _ & _ & [H | H])]; contradiction.
        -- destruct (lookup_raises _ _ _ En) as [-> Hn].
           split; split; try discriminate.
           ++ intros (w' & Hw' & Hu' & Hd'). injection Hw' as <-.
              contradiction (Hd' (Hu Hu')).
           ++ intros _. right. exists w. auto.
           ++ reflexivity.
      * destruct (lookup_raises _ _ _ Er) as [-> Hn].
        split; split; try discriminate.
        -- intros (w' & Hw' & Hu' & Hd'). injection Hw' as <-.
              contradiction (Hd' (Hu Hu')).
        -- intros _. right. exists w. auto.
        -- reflexivity.
    + apply data_times_unit_raises in Eq. destruct Eq as (-> & Hu & Hd).
      split; split; try discriminate.
      * intros _. exists w. auto.
      * reflexivity.
      * intros [H | (w' & Hw' & Hu' & _)]; [contradiction |].
        injection Hw' as <-. contradiction (Hd (Hu' Hu)).
  - destruct (lookup_raises _ _ _ Ew) as [-> Hn].
    split; split; try discriminate.
    + intros (w' & Hw' & _). discriminate.
    + intros _. left. exact Hn.
    + reflexivity.
Qed.

Lemma from_file_raises_witness :
  (from_file one_file "V.fits" = LoadRaise TypeError
   <-> exists wavelength,
         lookup "wavelength" (columns table_V) = Loaded wavelength
         /\ column_unit wavelength = None
         /\ data wavelength <> [])
  /\ (from_file one_file "V.fits" = LoadRaise KeyError
      <-> ~ In "wavelength"%string (map fst (columns table_V))
          \/ (exists wavelength,
                 lookup "wavelength" (columns table_V) = Loaded wavelength
                 /\ (column_unit wavelength = None -> data wavelength = [])
                 /\ (~ In "response"%string (map fst (columns table_V))
                     \/ ~ In "NAME"%string (map fst (meta table_V))))).
Proof.
  apply (from_file_raises one_file "V.fits" table_V). reflexivity.
Defined.

(** The file of the sample loads to [band]. *)
Lemma from_file_one_file : from_file one_file "V.fits" = Loaded band.
Proof. reflexivity. Qed.

(** Wavelengths without unit: a table with rows raises TypeError, and a
    table of no row loads, to a filter without wavelengths, which no
    spectrum goes through. *)
Lemma from_file_bare : from_file one_file "B.fits" = LoadRaise TypeError.
Proof. reflexivity. Qed.

Lemma from_file_empty :
  exists f,
    from_file one_file "E.fits" = Loaded f
    /\ name f = Some "E"%string
    /\ propagate_flux_density f flat = Raise ValueError.
Proof. eexists. split; [reflexivity |]. split; reflexivity. Qed.

End Labels.

(** * What the selection keeps *)

Section SelectionFacts.

Open Scope R_scope.

(** A selection that returns went through the three checks of lines 32
    to 35. *)
Lemma selected_returns_inv (self : Filter) (spectrum : Spectrum.t)
    (kept : Quantity ndarray * Quantity ndarray) :
  selected self spectrum = Ok kept ->
  value (wavelengths self) <> []
  /\ Dim_eqb (dim (unit (wavelengths self)))
             (dim (unit (Spectrum.wavelengths spectrum))) = true
  /\ Spectrum_wf spectrum.
Proof.
  intros H.
  destruct (value (wavelengths self)) as [| x0 xp] eqn:Hg.
  { rewrite (selected_empty_grid self spectrum Hg) in H. discriminate. }
  assert (Hne : value (wavelengths self) <> []) by (rewrite Hg; discriminate).
  rewrite <- Hg. split; [exact Hne |].
  destruct (Dim_eqb (dim (unit (wavelengths self)))
                    (dim (unit (Spectrum.wavelengths spectrum)))) eqn:HD.
  2:{ rewrite (selected_incompatible self spectrum Hne HD) in H. discriminate. }
  split; [reflexivity |].
  destruct (Nat.eq_dec (length (value (Spectrum.flux_density spectrum)))
                       (length (value (Spectrum.wavelengths spectrum))))
    as [Hwf | Hwf]; [exact Hwf |].
  rewrite (selected_ragged self spectrum Hne HD Hwf) in H. discriminate.
Qed.

Lemma inside_support_finite (self : Filter) (un : Unit) (w : float64) :
  inside_support self un w = true -> exists l : R, w = Fin l.
Proof.
  unfold inside_support.
  destruct (np_min (value (wavelengths self))) as [lo | e]; [| discriminate].
  destruct (np_max (value (wavelengths self))) as [hi | e]; [| discriminate].
  cbv zeta. unfold strictly_inside, gtb. intros H.
  apply andb_true_iff in H. destruct H as [H1 H2].
  destruct w as [l | | |].
  - exists l. reflexivity.
  - destruct (hi * _)%f64; discriminate.
  - destruct (lo * _)%f64; discriminate.
  - destruct (lo * _)%f64; discriminate.
Qed.

(** The selection never keeps a sample at a wavelength that is NaN or
    infinite: every selected wavelength is a finite number. *)
Theorem selected_wavelengths_finite (self : Filter) (spectrum : Spectrum.t)
    (flux_density wavelength : Quantity ndarray) (w : float64) :
  selected self spectrum = Ok (flux_density, wavelength) ->
  In w (value wavelength) ->
  exists l : R, w = Fin l.
Proof.
  intros H Hin.
  destruct (selected_returns_inv self spectrum _ H) as (Hne & HD & Hwf).
  rewrite (selected_inside self spectrum Hne HD Hwf) in H.
  injection H as _ <-. cbn [value] in Hin.
  apply in_map_iff in Hin. destruct Hin as (p & <- & Hp).
  unfold samples_inside in Hp. apply filter_In in Hp.
  apply (inside_support_finite self _ _ (proj2 Hp)).
Qed.

Lemma selected_wavelengths_finite_witness : exists l : R, Fin 500 = Fin l.
Proof.
  apply (selected_wavelengths_finite band
           (Spectrum.mk (mkQuantity [NaN; Fin 500; PInf] u.nm)
                        (mkQuantity [Fin 1; Fin 1; Fin 1] u.W_m3))
           (mkQuantity [Fin 1] u.W_m3) (mkQuantity [Fin 500] u.nm)).
  - rewrite selected_inside; [| discriminate | reflexivity | reflexivity].
    unfold band. f64_eval.
  - left. reflexivity.
Defined.

Lemma combine_fst_snd {A B : Type} (l : list (A * B)) :
  combine (map fst l) (map snd l) = l.
Proof.
  induction l as [| [a b] l IH]; simpl; [reflexivity | now rewrite IH].
Qed.

Lemma filter_idempotent {A : Type} (P : A -> bool) (l : list A) :
  filter P (filter P l) = filter P l.
Proof.
  induction l as [| x l IH]; simpl; [reflexivity |].
  destruct (P x) eqn:E; simpl; [rewrite E, IH |]; auto.
Qed.

(** Trimming a spectrum to the support of the filter beforehand changes
    nothing: the propagation of the selected samples alone is the
    propagation of the spectrum. *)
Theorem propagate_flux_density_trimmed (self : Filter) (spectrum : Spectrum.t)
    (flux_density wavelength : Quantity ndarray) :
  selected self spectrum = Ok (flux_density, wavelength) ->
  propagate_flux_density self (Spectrum.mk wavelength flux_density)
  = propagate_flux_density self spectrum.
Proof.
  intros H.
  destruct (selected_returns_inv self spectrum _ H) as (Hne & HD & Hwf).
  rewrite (selected_inside self spectrum Hne HD Hwf) in H.
  injection H as <- <-.
  unfold propagate_flux_density.
  rewrite (selected_local self
             (Spectrum.mk
                (mkQuantity (map fst (samples_inside self spectrum))
                            (unit (Spectrum.wavelengths spectrum)))
                (mkQuantity (map snd (samples_inside self spectrum))
                            (unit (Spectrum.flux_density spectrum))))
             spectrum); try reflexivity.
  - unfold Spectrum_wf. cbn [Spectrum.wavelengths Spectrum.flux_density value].
    now rewrite !length_map.
  - exact Hwf.
  - unfold samples_inside at 1, samples.
    cbn [Spectrum.wavelengths Spectrum.flux_density value unit].
    rewrite combine_fst_snd. unfold samples_inside. apply filter_idempotent.
Qed.

Lemma propagate_flux_density_trimmed_witness :
  propagate_flux_density band
    (Spectrum.mk (mkQuantity [Fin 500] u.nm) (mkQuantity [Fin 3] u.W_m3))
  = propagate_flux_density band edges.
Proof.
  apply (propagate_flux_density_trimmed band edges).
  rewrite selected_inside; [| discriminate | reflexivity | reflexivity].
  unfold band, edges. f64_eval.
Defined.

(** A NaN among the wavelengths of a filter is its least and its largest
    wavelength. *)
Lemma fold_minimum_NaN (a : ndarray) : fold_left minimum a NaN = NaN.
Proof. induction a as [| x a IH]; simpl; auto. Qed.

Lemma fold_maximum_NaN (a : ndarray) : fold_left maximum a NaN = NaN.
Proof. induction a as [| x a IH]; simpl; auto. Qed.

Lemma fold_minimum_In_NaN (a : ndarray) (x : float64) :
  In NaN a -> fold_left minimum a x = NaN.
Proof.
  revert x. induction a as [| y a IH]; intros x Hin; [destruct Hin |].
  destruct Hin as [E | Hin].
  - subst y. cbn [fold_left].
    replace (minimum x NaN) with NaN; [apply fold_minimum_NaN |].
    destruct x; reflexivity.
  - cbn [fold_left]. now apply IH.
Qed.

Lemma fold_maximum_In_NaN (a : ndarray) (x : float64) :
  In NaN a -> fold_left maximum a x = NaN.
Proof.
  revert x. induction a as [| y a IH]; intros x Hin; [destruct Hin |].
  destruct Hin as [E | Hin].
  - subst y. cbn [fold_left].
    replace (maximum x NaN) with NaN; [apply fold_maximum_NaN |].
    destruct x; reflexivity.
  - cbn [fold_left]. now apply IH.
Qed.

Lemma np_min_In_NaN (a : ndarray) : In NaN a -> np_min a = Ok NaN.
Proof.
  destruct a as [| x a]; [intros [] |]. intros [-> | Hin]; cbn [np_min].
  - now rewrite fold_minimum_NaN.
  - now rewrite fold_minimum_In_NaN.
Qed.

(** A filter with a NaN among its wavelengths selects no sample: on a
    spectrum that passes every check before the integration, the
    propagation fails with IndexError. *)
Theorem propagate_flux_density_NaN_grid (self : Filter) (spectrum : Spectrum.t) :
  In NaN (value (wavelengths self)) ->
  length (response self) = length (value (wavelengths self)) ->
  Dim_eqb (dim (unit (Spectrum.wavelengths spectrum)))
          (dim (unit (wavelengths self))) = true ->
  Dim_eqb (dim (frequency_flux_unit (unit (Spectrum.flux_density spectrum))
                                    (unit (Spectrum.wavelengths spectrum))))
          (dim u.Jy) = true ->
  Spectrum_wf spectrum ->
  propagate_flux_density self spectrum = Raise IndexError.
Proof.
  intros Hnan Hlen Hw Hf Hwf.
  assert (Hne : value (wavelengths self) <> []).
  { intros E. rewrite E in Hnan. destruct Hnan. }
  rewrite (propagate_flux_density_unfold self spectrum Hne Hlen Hw Hf Hwf).
  unfold propagate_spec.
  assert (E : samples_inside self spectrum = []).
  { unfold samples_inside.
    rewrite (filter_ext _ (fun _ => false)).
    - induction (samples spectrum) as [| p l IH]; simpl; auto.
    - intros p. unfold inside_support.
      rewrite (np_min_In_NaN _ Hnan).
      destruct (np_max (value (wavelengths self))); reflexivity. }
  rewrite E. apply ratio_of_integrals_nil.
Qed.

Lemma propagate_flux_density_NaN_grid_witness :
  propagate_flux_density
    (mkFilter (mkQuantity [Fin 400; NaN; Fin 600] u.nm)
              [Fin 1; Fin 1; Fin 1] None) flat
  = Raise IndexError.
Proof.
  apply propagate_flux_density_NaN_grid.
  - right. left. reflexivity.
  - reflexivity.
  - reflexivity.
  - reflexivity.
  - reflexivity.
Defined.

End SelectionFacts.

(** * The program in binary64 *)

Section Binary64.

Import PrimFloat.






(** C8 fails on the program, which computes in binary64.  The flux
    densities [1 + 2^-52] Jy and 1 Jy have the one magnitude -48.6:
    [log10] of the first is about [1e-16], which the subtraction of 48.6
    rounds away.  And [1e300] and [1e299] W / m2 / Hz both overflow in the
    conversion to jansky, to the magnitude [-inf], whatever the digits of
    [log10]. *)
Lemma flux2ABMag_not_strictly_decreasing :
  (1 <? B64.after_one)%float = true
  /\ (0 <? 1)%float = true
  /\ B64.flux2ABMag (B64.mkQuantity B64.after_one B64.u.Jy) = Ok (-48.6)%float
  /\ B64.flux2ABMag (B64.mkQuantity 1%float B64.u.Jy) = Ok (-48.6)%float
  /\ (-48.6 <? -48.6)%float = false
  /\ (1e299 <? 1e300)%float = true
  /\ (0 <? 1e299)%float = true
  /\ B64.flux2ABMag (B64.mkQuantity 1e300%float B64.u.W_m2_Hz) = Ok neg_infinity
  /\ B64.flux2ABMag (B64.mkQuantity 1e299%float B64.u.W_m2_Hz) = Ok neg_infinity
  /\ (neg_infinity <? neg_infinity)%float = false.
Proof. repeat split; vm_compute; reflexivity. Qed.

End Binary64.
